(** * LLaMA Deep Research Agent: a shallow embedding of [deep_research_openai.py]

    The script is a Streamlit page.  Each user interaction re-runs it from the
    top; [st.session_state] survives between runs.  The embedding keeps

    - Python values coming back from the two remote services (the crawl result
      and the decoded JSON body of the completion endpoint) as an inductive
      type [value], dictionaries being [gmap string value];
    - Python exceptions as a class name together with [str(e)];
    - the effects (the HTTP POST, the Firecrawl SDK, the Streamlit display
      calls, reads and writes of [st.session_state]) as a state-and-error monad
      over a [world]: the session store and the chronological trace of
      everything the script did.  The answers of the remote services are
      given by an environment [env] that sees the whole trace so far, so two
      identical requests may be answered differently.

    Strings are byte strings holding UTF-8. *)

From Stdlib Require Import ZArith Ascii DecimalString.
From stdpp Require Import base option list strings gmap.

Set Warnings "-register-all".

(** ** Python values *)

Inductive value : Type :=
| VNone
| VBool (b : bool)
| VInt (z : Z)
| VFloat (literal : string)
| VStr (s : string)
| VList (l : list value)
| VDict (d : gmap string value).

Definition type_name (v : value) : string :=
  match v with
  | VNone => "NoneType"
  | VBool _ => "bool"
  | VInt _ => "int"
  | VFloat _ => "float"
  | VStr _ => "str"
  | VList _ => "list"
  | VDict _ => "dict"
  end.

(** ** Exceptions

    Every exception of the model is an instance of a subclass of Python's
    [Exception]: the ones the interpreter raises on ill-shaped data, the one
    [call_llama] raises itself, and whatever [requests], the JSON decoder and
    the Firecrawl SDK raise.  [exn_str] is [str(e)]. *)

Record exn : Type := Exn { exn_class : string; exn_str : string }.

Definition Exception (msg : string) : exn := Exn "Exception" msg.
(** [KeyError(k)] for a key that is one of the source's literals: [str] of a
    [KeyError] is the [repr] of the key, here the key between single quotes. *)
Definition KeyError (key : string) : exn := Exn "KeyError" ("'" +:+ key +:+ "'").
Definition IndexError (msg : string) : exn := Exn "IndexError" msg.
Definition TypeError (msg : string) : exn := Exn "TypeError" msg.
Definition AttributeError (msg : string) : exn := Exn "AttributeError" msg.

Inductive result (A : Type) : Type :=
| Ok (a : A)
| Raise (e : exn).
Arguments Ok {A} a.
Arguments Raise {A} e.

(** ** Strings *)

Module Str.

(** [sub in s] on strings. *)
Definition contains (sub s : string) : Prop :=
  exists pre post, s = pre +:+ sub +:+ post.

(** [str(n)] for an [int]. *)
Definition of_int (z : Z) : string := NilZero.string_of_int (Z.to_int z).

Definition byte (c : ascii) : nat := nat_of_ascii c.

(** The one-byte characters [str.isspace] accepts: tab, line feed, vertical
    tab, form feed, carriage return, the four separators 0x1c-0x1f and the
    space. *)
Definition space1 (a : nat) : bool :=
  (Nat.leb 9 a && Nat.leb a 13) || (Nat.leb 28 a && Nat.leb a 32).

(** U+0085 and U+00A0, in UTF-8. *)
Definition space2 (a b : nat) : bool :=
  Nat.eqb a 194 && (Nat.eqb b 133 || Nat.eqb b 160).

(** U+1680, U+2000 to U+200A, U+2028, U+2029, U+202F, U+205F and U+3000, in
    UTF-8. *)
Definition space3 (a b c : nat) : bool :=
  (Nat.eqb a 225 && Nat.eqb b 154 && Nat.eqb c 128)
  || (Nat.eqb a 226 && Nat.eqb b 128 &&
      ((Nat.leb 128 c && Nat.leb c 138) || Nat.eqb c 168 || Nat.eqb c 169
       || Nat.eqb c 175))
  || (Nat.eqb a 226 && Nat.eqb b 129 && Nat.eqb c 159)
  || (Nat.eqb a 227 && Nat.eqb b 128 && Nat.eqb c 128).

(** [s.lstrip()] *)
Fixpoint lstrip (s : string) : string :=
  match s with
  | String a s1 =>
      if space1 (byte a) then lstrip s1
      else
        match s1 with
        | String b s2 =>
            if space2 (byte a) (byte b) then lstrip s2
            else
              match s2 with
              | String c s3 =>
                  if space3 (byte a) (byte b) (byte c) then lstrip s3 else s
              | EmptyString => s
              end
        | EmptyString => s
        end
  | EmptyString => s
  end.

(** The same scan over the reversed string, where the bytes of a character
    come last byte first. *)
Fixpoint lstrip_rev (s : string) : string :=
  match s with
  | String a s1 =>
      if space1 (byte a) then lstrip_rev s1
      else
        match s1 with
        | String b s2 =>
            if space2 (byte b) (byte a) then lstrip_rev s2
            else
              match s2 with
              | String c s3 =>
                  if space3 (byte c) (byte b) (byte a) then lstrip_rev s3
                  else s
              | EmptyString => s
              end
        | EmptyString => s
        end
  | EmptyString => s
  end.

(** [s.rstrip()] *)
Definition rstrip (s : string) : string :=
  String.rev (lstrip_rev (String.rev s)).

(** [s.strip()] *)
Definition strip (s : string) : string := rstrip (lstrip s).

(** [len(s)]: the number of characters, that is of bytes which are not
    UTF-8 continuation bytes. *)
Fixpoint len (s : string) : nat :=
  match s with
  | String a s' =>
      (if Nat.leb 128 (byte a) && Nat.ltb (byte a) 192 then 0 else 1)
      + len s'
  | EmptyString => 0
  end.

(** [s.replace(' ', '_')] *)
Fixpoint replace_space (s : string) : string :=
  match s with
  | String a s' =>
      String (if Ascii.eqb a " " then "_"%char else a) (replace_space s')
  | EmptyString => EmptyString
  end.

(** Truth value of a string: non-empty. *)
Definition truthy (s : string) : bool :=
  match s with EmptyString => false | String _ _ => true end.

Definition nl : string := String (ascii_of_nat 10) "".

(** The double quote character. *)
Definition dquote : string := String (ascii_of_nat 34) "".

End Str.

(** ** Operations of the interpreter on values *)

Module Py.

(** [v[key]] with a string key. *)
Definition getitem (v : value) (key : string) : result value :=
  match v with
  | VDict d =>
      match d !! key with
      | Some x => Ok x
      | None => Raise (KeyError key)
      end
  | VList _ =>
      Raise (TypeError "list indices must be integers or slices, not str")
  | VStr _ => Raise (TypeError "string indices must be integers, not 'str'")
  | _ =>
      Raise (TypeError ("'" +:+ type_name v +:+ "' object is not subscriptable"))
  end.

(** [l[0]] on a list. *)
Definition getitem0 (l : list value) : result value :=
  match l !! 0%nat with
  | Some x => Ok x
  | None => Raise (IndexError "list index out of range")
  end.

Definition no_attribute (v : value) (attr : string) : exn :=
  AttributeError
    ("'" +:+ type_name v +:+ "' object has no attribute '" +:+ attr +:+ "'").

(** [v.get(key, dflt)]: only a dictionary has the method. *)
Definition get (v : value) (key : string) (dflt : value) : result value :=
  match v with
  | VDict d => Ok (default dflt (d !! key))
  | _ => Raise (no_attribute v "get")
  end.

(** [v.strip()]: only a string has the method. *)
Definition strip (v : value) : result value :=
  match v with
  | VStr s => Ok (VStr (Str.strip s))
  | _ => Raise (no_attribute v "strip")
  end.

(** [len(v)] *)
Definition len (v : value) : result Z :=
  match v with
  | VStr s => Ok (Z.of_nat (Str.len s))
  | VList l => Ok (Z.of_nat (length l))
  | VDict d => Ok (Z.of_nat (size d))
  | _ =>
      Raise (TypeError ("object of type '" +:+ type_name v +:+ "' has no len()"))
  end.

End Py.

(** ** The world: session store, trace, remote services *)

(** The keyword arguments of [requests.post]. *)
Record request : Type := Request {
  req_url : string;
  req_headers : gmap string string;
  req_json : value
}.

(** What the script reads of a [requests.Response]; [json] is the outcome of
    [response.json()]. *)
Record response : Type := Response {
  status_code : Z;
  text : string;
  json : result value
}.

(** The [params] dictionary handed to the Firecrawl SDK. *)
Record crawl_params : Type := CrawlParams {
  maxDepth : Z;
  timeLimit : Z;
  maxUrls : Z
}.

(** Calls into Streamlit that only display something. *)
Inductive display : Type :=
| set_page_config (page_title page_icon layout : string)
| sidebar_enter
| sidebar_exit
| title (body : string)
| text_input (label value_ : string) (placeholder : option string)
    (type_ : string)
| markdown (body : value)
| write (body : string)
| error (body : string)
| warning (body : string)
| spinner_enter (text_ : string)
| spinner_exit
| expander_enter (label : string)
| expander_exit
| button (label : string) (disabled : bool)
| empty
| placeholder_markdown (body : value)
| download_button (label : string) (data : value) (file_name mime : string).

Inductive event : Type :=
| Post (r : request)
| NewFirecrawlApp (api_key : string)
| Crawl (api_key query : string) (params : crawl_params)
| Show (d : display).

(** The remote side.  Each answer may depend on everything that happened
    before.  [requests.post] returns a response or raises (a transport
    error); the [FirecrawlApp] constructor may raise; the SDK's
    [deep_research] reports a list of activities to the callback it was given
    and then returns a value or raises. *)
Record env : Type := Env {
  requests_post : list event -> request -> result response;
  firecrawl_app : list event -> string -> result unit;
  firecrawl_deep_research :
    list event -> string -> string -> crawl_params -> list value * result value
}.

Record world : Type := World {
  session_state : gmap string string;
  trace : list event
}.

(** ** The monad of the script *)

Definition M (A : Type) : Type := world -> result A * world.

Global Instance M_ret : MRet M := fun A a w => (Ok a, w).

Global Instance M_bind : MBind M := fun A B k m w =>
  match m w with
  | (Ok a, w') => k a w'
  | (Raise e, w') => (Raise e, w')
  end.

Definition raise {A} (e : exn) : M A := fun w => (Raise e, w).

(** A pure computation that may raise. *)
Definition lift {A} (r : result A) : M A := fun w => (r, w).

(** [try: body except Exception as e: handler e] *)
Definition try_except {A} (body : M A) (handler : exn -> M A) : M A := fun w =>
  match body w with
  | (Ok a, w') => (Ok a, w')
  | (Raise e, w') => handler e w'
  end.

Definition emit (ev : event) : M unit := fun w =>
  (Ok tt, World (session_state w) (trace w ++ [ev])).

Definition show (d : display) : M unit := emit (Show d).

(** [with ctx: body], for a Streamlit container or spinner: the exit is
    performed whether the body returns or raises, and does not swallow the
    exception. *)
Definition with_ {A} (enter exit_ : display) (body : M A) : M A := fun w =>
  match show enter w with
  | (_, w1) =>
      match body w1 with
      | (r, w2) => (r, snd (show exit_ w2))
      end
  end.

(** The message of the [AttributeError] Streamlit raises for a key that is
    not in the session store. *)
Definition missing_attribute (name : string) : string :=
  "st.session_state has no attribute " +:+ Str.dquote +:+ name +:+ Str.dquote
  +:+ ". Did you forget to initialize it? More info: https://docs.streamlit.io/develop/concepts/architecture/session-state#initialization".

(** [st.session_state.<name>] as an expression. *)
Definition session_get (name : string) : M string := fun w =>
  match session_state w !! name with
  | Some v => (Ok v, w)
  | None => (Raise (AttributeError (missing_attribute name)), w)
  end.

(** [st.session_state.<name> = v] *)
Definition session_set (name v : string) : M unit := fun w =>
  (Ok tt, World (<[name := v]> (session_state w)) (trace w)).

(** [name in st.session_state] *)
Definition session_has (name : string) : M bool := fun w =>
  (Ok (bool_decide (is_Some (session_state w !! name))), w).

(** ** The script *)

(** [research_result], the dictionary [deep_research] returns: either
    [{"success": True, "final_analysis": .., "sources_count": .., "sources": ..}]
    or [{"error": .., "success": False}]. *)
Inductive research_result : Type :=
| Research (final_analysis : value) (sources_count : Z) (sources : value)
| Failed (error_ : string).

(** [research_result["success"]] *)
Definition success (r : research_result) : bool :=
  match r with Research _ _ _ => true | Failed _ => false end.

(** What the widgets return in one run of the script: the contents of the
    four text fields and whether the button was pressed. *)
Record inputs : Type := Inputs {
  in_llama_endpoint : string;
  in_llama_api_key : string;
  in_firecrawl_api_key : string;
  in_research_topic : string;
  in_start_research : bool
}.

Definition failure_message : string := "Research failed. Please try again.".

Section Script.

(** [repr] of a float, a list or a dictionary. *)
Variable repr : value -> string.
Variable E : env.

(** [str(v)], which is what an f-string field without format
    specification inserts. *)
Definition str (v : value) : string :=
  match v with
  | VStr s => s
  | VNone => "None"
  | VBool true => "True"
  | VBool false => "False"
  | VInt z => Str.of_int z
  | VFloat _ | VList _ | VDict _ => repr v
  end.

(** [requests.post(url, headers=.., json=..)] *)
Definition post (r : request) : M response := fun w =>
  (requests_post E (trace w) r,
   World (session_state w) (trace w ++ [Post r])).

Definition payload (prompt : string) : value :=
  VDict {[ "inputs" := VStr prompt;
           "parameters" :=
             VDict {[ "max_new_tokens" := VInt 1024;
                      "temperature" := VFloat "0.7" ]} ]}.

Definition api_error (r : response) : exn :=
  Exception
    ("LLaMA API error: " +:+ Str.of_int (status_code r) +:+ " - " +:+ text r).

(** Line 79: [result[0]["generated_text"] if isinstance(result, list) else
    result.get("generated_text", "").strip()].  The conditional expression
    binds weakest, so [.strip()] belongs to the second alternative only. *)
Definition generated_text (result_ : value) : result value :=
  match result_ with
  | VList l =>
      match Py.getitem0 l with
      | Ok first => Py.getitem first "generated_text"
      | Raise e => Raise e
      end
  | _ =>
      match Py.get result_ "generated_text" (VStr "") with
      | Ok text_ => Py.strip text_
      | Raise e => Raise e
      end
  end.

Definition call_llama (prompt : string) : M value :=
  let headers : gmap string string :=
    {[ "Content-Type" := "application/json" ]} in
  api_key ← session_get "llama_api_key";
  headers ←
    (if Str.truthy api_key then
       api_key ← session_get "llama_api_key";
       mret (<["Authorization" := "Bearer " +:+ api_key]> headers)
     else mret headers);
  endpoint ← session_get "llama_endpoint";
  response ← post (Request endpoint headers (payload prompt));
  if (status_code response =? 200)%Z then
    result_ ← lift (json response);
    lift (generated_text result_)
  else raise (api_error response).

(** [FirecrawlApp(api_key=..)]; the application object is identified by
    its key. *)
Definition FirecrawlApp (api_key : string) : M string := fun w =>
  (match firecrawl_app E (trace w) api_key with
   | Ok _ => Ok api_key
   | Raise e => Raise e
   end,
   World (session_state w) (trace w ++ [NewFirecrawlApp api_key])).

Fixpoint report (on_activity : value -> M unit) (activities : list value)
  : M unit :=
  match activities with
  | [] => mret tt
  | a :: rest => on_activity a;; report on_activity rest
  end.

(** [app.deep_research(query=.., params=.., on_activity=..)]: the SDK calls
    the callback on each activity in turn, an exception of the callback
    leaving the call, and then returns or raises. *)
Definition app_deep_research (app query : string) (params : crawl_params)
    (on_activity : value -> M unit) : M value := fun w =>
  let '(activities, outcome) :=
    firecrawl_deep_research E (trace w) app query params in
  match report on_activity activities
          (World (session_state w) (trace w ++ [Crawl app query params])) with
  | (Ok _, w') => (outcome, w')
  | (Raise e, w') => (Raise e, w')
  end.

Definition on_activity (activity : value) : M unit :=
  type_ ← lift (Py.getitem activity "type");
  message ← lift (Py.getitem activity "message");
  show (write ("[" +:+ str type_ +:+ "] " +:+ str message)).

(** Lines 89 to 104: the application object, the parameters and the call
    of the SDK under its spinner. *)
Definition crawl (query : string) (max_depth time_limit max_urls : Z)
  : M value :=
  api_key ← session_get "firecrawl_api_key";
  firecrawl_app ← FirecrawlApp api_key;
  let params := CrawlParams max_depth time_limit max_urls in
  with_ (spinner_enter "Performing deep research...") spinner_exit
    (app_deep_research firecrawl_app query params on_activity).

(** Lines 106 to 111: the dictionary returned on success, its entries
    evaluated in the order they are written. *)
Definition crawl_record (results : value) : result research_result :=
  match Py.getitem results "data" with
  | Raise e => Raise e
  | Ok data =>
  match Py.getitem data "finalAnalysis" with
  | Raise e => Raise e
  | Ok final_analysis =>
  match Py.getitem data "sources" with
  | Raise e => Raise e
  | Ok sources =>
  match Py.len sources with
  | Raise e => Raise e
  | Ok sources_count => Ok (Research final_analysis sources_count sources)
  end end end end.

Definition deep_research (query : string) (max_depth time_limit max_urls : Z)
  : M research_result :=
  try_except
    (results ← crawl query max_depth time_limit max_urls;
     lift (crawl_record results))
    (fun e =>
       show (error ("Deep research error: " +:+ exn_str e));;
       mret (Failed (exn_str e))).

Definition initial_prompt (topic : string) (final_analysis sources : value)
  : string :=
  Str.nl
  +:+ "You are a research assistant. Based on the analysis and sources below, generate a clear, structured research report."
  +:+ Str.nl +:+ Str.nl
  +:+ "Topic: " +:+ topic +:+ Str.nl +:+ Str.nl
  +:+ "Analysis:" +:+ Str.nl
  +:+ str final_analysis +:+ Str.nl +:+ Str.nl
  +:+ "Sources:" +:+ Str.nl
  +:+ str sources +:+ Str.nl +:+ Str.nl
  +:+ "Write a concise research report with citations and key insights."
  +:+ Str.nl.

Definition enhancement_prompt (initial_report : value) : string :=
  Str.nl
  +:+ "Enhance the following research report by:" +:+ Str.nl
  +:+ "- Adding more detail to complex parts" +:+ Str.nl
  +:+ "- Including examples, case studies, and applications" +:+ Str.nl
  +:+ "- Describing visual elements like diagrams" +:+ Str.nl
  +:+ "- Making the report comprehensive but factual" +:+ Str.nl +:+ Str.nl
  +:+ "Original Report:" +:+ Str.nl
  +:+ str initial_report +:+ Str.nl.

(** Lines 119 and 120: step one under its spinner. *)
Definition research_step (topic : string) : M research_result :=
  with_ (spinner_enter "Conducting deep web research...") spinner_exit
    (deep_research topic 3 180 10).

Definition run_research_process (topic : string) : M value :=
  research_result ← research_step topic;
  if negb (success research_result) then mret (VStr failure_message)
  else
    match research_result with
    | Failed _ => raise (KeyError "final_analysis")
    | Research final_analysis _ sources =>
        initial_report ←
          call_llama (initial_prompt topic final_analysis sources);
        with_ (expander_enter "View Initial Research Report") expander_exit
          (show (markdown initial_report));;
        enhanced_report ←
          with_
            (spinner_enter
               "Enhancing the report with additional information...")
            spinner_exit
            (call_llama (enhancement_prompt initial_report));
        mret enhanced_report
    end.

(** *** The page, run once per interaction *)

(** One of the three tests of lines 15 to 20: a key missing from the session
    store is created empty. *)
Definition init_key (name : string) : M unit :=
  present ← session_has name;
  if negb present then session_set name "" else mret tt.

(** [st.text_input(..)] shows the field and returns what it holds. *)
Definition st_text_input (label value_ : string) (placeholder : option string)
    (type_ entered : string) : M string :=
  show (text_input label value_ placeholder type_);; mret entered.

(** [st.download_button(label, data, file_name=.., mime=..)]: the widget
    takes a string (or bytes and files, which no value here is) and raises
    on any other data. *)
Definition invalid_data (data : value) : exn :=
  Exn "StreamlitAPIException"
    ("Invalid binary data format: <class '" +:+ type_name data +:+ "'>").

Definition st_download_button (label : string) (data : value)
    (file_name mime : string) : M unit :=
  match data with
  | VStr _ => show (download_button label data file_name mime)
  | _ => raise (invalid_data data)
  end.

(** [st.button(..)] shows the button and returns whether the front end
    reported it pressed; [disabled] is handed to the widget. *)
Definition st_button (label : string) (disabled pressed : bool) : M bool :=
  show (button label disabled);; mret pressed.

Definition sidebar (i : inputs) : M unit :=
  with_ sidebar_enter sidebar_exit
    (show (title "API Configuration");;
     value_ ← session_get "llama_endpoint";
     llama_endpoint ←
       st_text_input "LLaMA API Endpoint" value_
         (Some "e.g., https://api-inference.huggingface.co/models/meta-llama/Llama-3-3B-Instruct")
         "default" (in_llama_endpoint i);
     value_ ← session_get "llama_api_key";
     llama_api_key ←
       st_text_input "LLaMA API Key (optional)" value_ None "password"
         (in_llama_api_key i);
     value_ ← session_get "firecrawl_api_key";
     firecrawl_api_key ←
       st_text_input "Firecrawl API Key" value_ None "password"
         (in_firecrawl_api_key i);
     (if Str.truthy llama_endpoint
      then session_set "llama_endpoint" llama_endpoint else mret tt);;
     (if Str.truthy llama_api_key
      then session_set "llama_api_key" llama_api_key else mret tt);;
     (if Str.truthy firecrawl_api_key
      then session_set "firecrawl_api_key" firecrawl_api_key else mret tt)).

(** [research_topic and st.session_state.llama_endpoint and
    st.session_state.firecrawl_api_key]: the first falsy operand, else the
    last one; operands after a falsy one are not evaluated. *)
Definition required_inputs (research_topic : string) : M string :=
  if Str.truthy research_topic then
    llama_endpoint ← session_get "llama_endpoint";
    if Str.truthy llama_endpoint then session_get "firecrawl_api_key"
    else mret llama_endpoint
  else mret research_topic.

(** Lines 171 to 185: the research with its rendering, and the handler of
    whatever it raises. *)
Definition research_and_render (research_topic : string) : M unit :=
  try_except
    (show empty;;
     enhanced_report ← run_research_process research_topic;
     show (placeholder_markdown (VStr "## Enhanced Research Report"));;
     show (placeholder_markdown enhanced_report);;
     st_download_button "Download Report" enhanced_report
       (Str.replace_space research_topic +:+ "_report.md")
       "text/markdown")
    (fun e => show (error ("An error occurred: " +:+ exn_str e))).

(** The body of [if st.button(..):]. *)
Definition start_research (research_topic : string) : M unit :=
  if negb (Str.truthy research_topic) then
    show (warning "Please enter a research topic.")
  else
    firecrawl_api_key ← session_get "firecrawl_api_key";
    if negb (Str.truthy firecrawl_api_key) then
      show (warning "Please enter the Firecrawl API key.")
    else
      llama_endpoint ← session_get "llama_endpoint";
      if negb (Str.truthy llama_endpoint) then
        show (warning "Please enter the LLaMA API endpoint.")
      else research_and_render research_topic.

(** Lines 163 to 185: the button and what pressing it does. *)
Definition trigger (research_topic : string) (pressed : bool) : M unit :=
  required ← required_inputs research_topic;
  pressed ←
    st_button "Start Research" (negb (Str.truthy required)) pressed;
  if (pressed : bool) then start_research research_topic else mret tt.

(** Lines 15 to 20. *)
Definition initialise_session : M unit :=
  init_key "llama_api_key";;
  init_key "llama_endpoint";;
  init_key "firecrawl_api_key".

Definition page (i : inputs) : M unit :=
  show (set_page_config "LLaMA Deep Research Agent" "📘" "wide");;
  initialise_session;;
  sidebar i;;
  show (title "📘 LLaMA Deep Research Agent");;
  show (markdown (VStr "This LLaMA Agent performs deep research using Firecrawl and LLaMA API for reasoning and report generation."));;
  research_topic ←
    st_text_input "Enter your research topic:" ""
      (Some "e.g., Latest developments in AI") "default" (in_research_topic i);
  trigger research_topic (in_start_research i);;
  show (markdown (VStr "---"));;
  show (markdown (VStr "Powered by LLaMA and Firecrawl")).

End Script.

(** ** Vocabulary of the properties *)

(** The three keys are in the session store, as they are once lines 15 to 20
    have run. *)
Definition initialised (ss : gmap string string) : Prop :=
  is_Some (ss !! "llama_api_key") /\
  is_Some (ss !! "llama_endpoint") /\
  is_Some (ss !! "firecrawl_api_key").

(** The headers [call_llama] sends for a stored completion key. *)
Definition llama_headers (api_key : string) : gmap string string :=
  if Str.truthy api_key
  then <["Authorization" := "Bearer " +:+ api_key]>
         {[ "Content-Type" := "application/json" ]}
  else {[ "Content-Type" := "application/json" ]}.

(** The request [call_llama] sends from a session store. *)
Definition llama_request (ss : gmap string string) (prompt : string) : request :=
  Request (ss !!! "llama_endpoint") (llama_headers (ss !!! "llama_api_key"))
    (payload prompt).

(** What [call_llama] makes of the outcome of its POST. *)
Definition llama_reply (o : result response) : result value :=
  match o with
  | Raise e => Raise e
  | Ok r =>
      if (status_code r =? 200)%Z then
        match json r with
        | Ok body => generated_text body
        | Raise e => Raise e
        end
      else Raise (api_error r)
  end.

(** Remote calls of a trace, in order: everything but the display. *)
Definition is_call (ev : event) : bool :=
  match ev with Show _ => false | _ => true end.
Definition calls (tr : list event) : list event := filter is_call tr.

(** The requests posted to the completion endpoint. *)
Definition posts (tr : list event) : list request :=
  omap (fun ev => match ev with Post r => Some r | _ => None end) tr.

(** The [disabled] flags of the buttons shown. *)
Definition buttons (tr : list event) : list bool :=
  omap (fun ev => match ev with Show (button _ d) => Some d | _ => None end) tr.

(** The warnings shown. *)
Definition warnings (tr : list event) : list string :=
  omap (fun ev => match ev with Show (warning s) => Some s | _ => None end) tr.

(** The display calls other than buttons and warnings. *)
Definition plain (d : display) : Prop :=
  match d with
  | button _ _ | warning _ => False
  | _ => True
  end.

(** The first required input that is missing, in the order the script
    tests them, with the warning it gets. *)
Inductive missing (topic crawl_key endpoint : string) : string -> Prop :=
| missing_topic :
    topic = "" -> missing topic crawl_key endpoint "Please enter a research topic."
| missing_crawl_key :
    topic <> "" -> crawl_key = "" ->
    missing topic crawl_key endpoint "Please enter the Firecrawl API key."
| missing_endpoint :
    topic <> "" -> crawl_key <> "" -> endpoint = "" ->
    missing topic crawl_key endpoint "Please enter the LLaMA API endpoint.".

(** The three keys of the session store and the field each is entered in. *)
Definition credential_keys : list string :=
  ["llama_endpoint"; "llama_api_key"; "firecrawl_api_key"].

Definition entered (i : inputs) (name : string) : string :=
  if decide (name = "llama_endpoint") then in_llama_endpoint i
  else if decide (name = "llama_api_key") then in_llama_api_key i
  else in_firecrawl_api_key i.

(** The store after lines 15 to 20. *)
Definition ensure (name : string) (ss : gmap string string)
  : gmap string string :=
  if bool_decide (is_Some (ss !! name)) then ss else <[name := ""]> ss.

Definition ensured (ss : gmap string string) : gmap string string :=
  ensure "firecrawl_api_key" (ensure "llama_endpoint" (ensure "llama_api_key" ss)).

(** The store after lines 41 to 46. *)
Definition keep_or_set (name v : string) (ss : gmap string string)
  : gmap string string :=
  if Str.truthy v then <[name := v]> ss else ss.

Definition updated (i : inputs) (ss : gmap string string) : gmap string string :=
  keep_or_set "firecrawl_api_key" (in_firecrawl_api_key i)
    (keep_or_set "llama_api_key" (in_llama_api_key i)
       (keep_or_set "llama_endpoint" (in_llama_endpoint i) ss)).

(** [w'] comes after [w]: same session store, and the trace grew by events
    that all satisfy [P]. *)
Definition extends (P : event -> Prop) (w w' : world) : Prop :=
  session_state w' = session_state w /\
  exists new, trace w' = trace w ++ new /\ Forall P new.

(** Whatever the outcome, [m] only reads the session store and only adds
    events satisfying [P]. *)
Definition emits {A} (P : event -> Prop) (m : M A) : Prop :=
  forall w, extends P w (snd (m w)).

(** The page run once per interaction, the session store and the trace
    carried from one run to the next. *)
Definition interact (repr : value -> string) (E : env)
    (runs : list inputs) (w : world) : world :=
  foldl (fun w i => snd (page repr E i w)) w runs.

(** The answers the completion endpoint is expected to give, and the text
    [call_llama] takes from each: a list whose element 0 is an object with a
    [generated_text] field yields that field as it is; an object whose
    [generated_text] field is a string yields it stripped. *)
Inductive extracts : value -> value -> Prop :=
| extracts_list (l : list value) (d : gmap string value) (field : value) :
    l !! 0%nat = Some (VDict d) ->
    d !! "generated_text" = Some field ->
    extracts (VList l) field
| extracts_object (d : gmap string value) (s : string) :
    d !! "generated_text" = Some (VStr s) ->
    extracts (VDict d) (VStr (Str.strip s)).

(** The shapes section 6 of the specification names: a list whose first
    element has a [generated_text] field, or an object with one. *)
Definition expected_shape (body : value) : Prop :=
  (exists (l : list value) (d : gmap string value),
     body = VList l /\ l !! 0%nat = Some (VDict d)
     /\ is_Some (d !! "generated_text")) \/
  (exists d : gmap string value,
     body = VDict d /\ is_Some (d !! "generated_text")).

(** ** Concrete stores, services and runs used in the examples *)

Module Demo.

(** A [repr] that is right on the empty list, the only container the
    examples format. *)
Definition repr (v : value) : string := "[]".

Definition store : gmap string string :=
  {[ "llama_api_key" := "secret";
     "llama_endpoint" := "https://llm.example/generate";
     "firecrawl_api_key" := "fc-key" ]}.

Definition start : world := World store [].

(** A crawl result of the expected shape. *)
Definition crawled : value :=
  VDict {[ "data" :=
             VDict {[ "finalAnalysis" := VStr "X"; "sources" := VList [] ]} ]}.

Definition activity : value :=
  VDict {[ "type" := VStr "search"; "message" := VStr "looking" ]}.

(** Services where the completion endpoint always answers [r] and the crawl
    reports one activity and succeeds. *)
Definition answering (r : response) : env :=
  Env (fun _ _ => Ok r)
      (fun _ _ => Ok tt)
      (fun _ _ _ _ => ([activity], Ok crawled)).

(** Services where the crawl fails. *)
Definition crawl_failing (r : response) : env :=
  Env (fun _ _ => Ok r)
      (fun _ _ => Ok tt)
      (fun _ _ _ _ => ([], Raise (Exception "Deep research failed: timeout"))).

Definition ok_json (body : value) : response := Response 200 "" (Ok body).

(** The completion endpoint answers every prompt with the same report. *)
Definition reporting : env :=
  answering (ok_json (VList [VDict {[ "generated_text" := VStr "report" ]}])).

(** A first visit: nothing stored yet, the endpoint and the crawl key are
    typed in, the topic is not. *)
Definition first_visit : inputs :=
  Inputs "https://llm.example/generate" "" "fc-key" "" false.

(** A later run in which every field of the sidebar has been emptied and
    the button is reported pressed. *)
Definition fields_cleared : inputs := Inputs "" "" "" "quantum computing" true.

Definition unavailable : response :=
  Response 503 "Service Unavailable"
    (Raise (Exn "JSONDecodeError" "Expecting value: line 1 column 1 (char 0)")).

End Demo.

(** ** Further projections of a trace *)

(** The messages shown with [st.error]. *)
Definition errors (tr : list event) : list string :=
  omap (fun ev => match ev with Show (error s) => Some s | _ => None end) tr.

(** The lines shown with [st.write]. *)
Definition writes (tr : list event) : list string :=
  omap (fun ev => match ev with Show (write s) => Some s | _ => None end) tr.

(** The download buttons shown: the data offered and the file name. *)
Definition downloads (tr : list event) : list (value * string) :=
  omap (fun ev =>
          match ev with
          | Show (download_button _ data file_name _) => Some (data, file_name)
          | _ => None
          end) tr.

(** The requests sent to the two remote services: crawls and POSTs. *)
Definition remote (tr : list event) : list event :=
  omap (fun ev =>
          match ev with
          | Post _ | Crawl _ _ _ => Some ev
          | _ => None
          end) tr.

(** The line [on_activity] writes for an activity that has a [type] and a
    [message]. *)
Definition activity_line (repr : value -> string) (activity : value)
  : option string :=
  match activity with
  | VDict d =>
      match d !! "type", d !! "message" with
      | Some type_, Some message =>
          Some ("[" +:+ str repr type_ +:+ "] " +:+ str repr message)
      | _, _ => None
      end
  | _ => None
  end.

(** The value a field of the sidebar leaves in the store after a sequence of
    runs that started from [v]: the last non-empty entry, else [v]. *)
Definition latest (name : string) (runs : list inputs) (v : string) : string :=
  foldl (fun acc i => if Str.truthy (entered i name) then entered i name else acc)
    v runs.

(** The name of the file offered for download. *)
Definition report_file (topic : string) : string :=
  Str.replace_space topic +:+ "_report.md".

(** Whether a string starts with one of the whitespace characters that
    [str.strip] removes. *)
Definition starts_with_space (s : string) : bool :=
  match s with
  | String a s1 =>
      Str.space1 (Str.byte a)
      || match s1 with
         | String b s2 =>
             Str.space2 (Str.byte a) (Str.byte b)
             || match s2 with
                | String c _ =>
                    Str.space3 (Str.byte a) (Str.byte b) (Str.byte c)
                | EmptyString => false
                end
         | EmptyString => false
         end
  | EmptyString => false
  end.

(** The same test on a reversed string. *)
Definition starts_with_space_reversed (s : string) : bool :=
  match s with
  | String a s1 =>
      Str.space1 (Str.byte a)
      || match s1 with
         | String b s2 =>
             Str.space2 (Str.byte b) (Str.byte a)
             || match s2 with
                | String c _ =>
                    Str.space3 (Str.byte c) (Str.byte b) (Str.byte a)
                | EmptyString => false
                end
         | EmptyString => false
         end
  | EmptyString => false
  end.

(** Whether a string ends with one of those characters. *)
Definition ends_with_space (s : string) : bool :=
  starts_with_space_reversed (String.rev s).

(** Reading a crawl result the way lines 106 to 111 do raises [e]: at
    [results['data']], else at [['finalAnalysis']], else at [['sources']],
    else at [len(..)] of the sources. *)
Definition unreadable (results : value) (e : exn) : Prop :=
  Py.getitem results "data" = Raise e \/
  exists data,
    Py.getitem results "data" = Ok data /\
    (Py.getitem data "finalAnalysis" = Raise e \/
     exists final_analysis,
       Py.getitem data "finalAnalysis" = Ok final_analysis /\
       (Py.getitem data "sources" = Raise e \/
        exists sources,
          Py.getitem data "sources" = Ok sources /\
          Py.len sources = Raise e)).

(** What [run_research_process] may display. *)
Definition research_display (d : display) : Prop :=
  match d with
  | spinner_enter _ | spinner_exit | write _ | error _
  | expander_enter _ | expander_exit | markdown _ => True
  | _ => False
  end.

(** The crawls of a trace: the query and the limits of each. *)
Definition crawls (tr : list event) : list (string * crawl_params) :=
  omap (fun ev =>
          match ev with
          | Crawl _ query params => Some (query, params)
          | _ => None
          end) tr.

(** The cost of a trace, for a cost given to each event. *)
Definition spent (cost : event -> nat) (tr : list event) : nat :=
  foldr (fun ev n => (cost ev + n)%nat) 0%nat tr.

(** Whatever the outcome, the events [m] adds cost at most [n]. *)
Definition at_most {A} (cost : event -> nat) (n : nat) (m : M A) : Prop :=
  forall w,
    exists new,
      trace (snd (m w)) = trace w ++ new /\ (spent cost new <= n)%nat.

Definition post_cost (ev : event) : nat :=
  match ev with Post _ => 1%nat | _ => 0%nat end.

Definition crawl_cost (ev : event) : nat :=
  match ev with Crawl _ _ _ => 1%nat | _ => 0%nat end.

(** ** Lemmas on the monad *)

Lemma extends_refl P w : extends P w w.
Proof.
  split; [reflexivity|]. exists []. rewrite app_nil_r. auto.
Qed.

Lemma extends_trans P w1 w2 w3 :
  extends P w1 w2 -> extends P w2 w3 -> extends P w1 w3.
Proof.
  intros [Hs1 (n1 & Ht1 & Hf1)] [Hs2 (n2 & Ht2 & Hf2)]. split.
  - congruence.
  - exists (n1 ++ n2). rewrite Ht2, Ht1, app_assoc. split; [reflexivity|].
    apply Forall_app; auto.
Qed.

Lemma extends_emit (P : event -> Prop) ev w :
  P ev -> extends P w (World (session_state w) (trace w ++ [ev])).
Proof.
  intros H. split; [reflexivity|]. exists [ev]. split; [reflexivity|].
  constructor; auto.
Qed.

Lemma emits_ret {A} P (a : A) : emits P (mret a).
Proof. intros w. apply extends_refl. Qed.

Lemma emits_raise {A} P e : emits P (@raise A e).
Proof. intros w. apply extends_refl. Qed.

Lemma emits_lift {A} P (r : result A) : emits P (lift r).
Proof. intros w. apply extends_refl. Qed.

Lemma emits_session_get P name : emits P (session_get name).
Proof.
  intros w. unfold session_get. destruct (session_state w !! name);
    apply extends_refl.
Qed.

Lemma emits_emit (P : event -> Prop) ev : P ev -> emits P (emit ev).
Proof. intros H w. apply extends_emit, H. Qed.

Lemma emits_show (P : event -> Prop) d : P (Show d) -> emits P (show d).
Proof. apply emits_emit. Qed.

Lemma emits_bind {A B} P (m : M A) (k : A -> M B) :
  emits P m -> (forall a, emits P (k a)) -> emits P (m ≫= k).
Proof.
  intros Hm Hk w. unfold mbind, M_bind. specialize (Hm w).
  destruct (m w) as [[a|e] w1]; simpl in *.
  - eapply extends_trans; [exact Hm|]. apply Hk.
  - exact Hm.
Qed.

Lemma emits_try {A} P (body : M A) (handler : exn -> M A) :
  emits P body -> (forall e, emits P (handler e)) ->
  emits P (try_except body handler).
Proof.
  intros Hm Hk w. unfold try_except. specialize (Hm w).
  destruct (body w) as [[a|e] w1]; simpl in *.
  - exact Hm.
  - eapply extends_trans; [exact Hm|]. apply Hk.
Qed.

Lemma emits_with {A} (P : event -> Prop) enter exit_ (body : M A) :
  P (Show enter) -> P (Show exit_) -> emits P body ->
  emits P (with_ enter exit_ body).
Proof.
  intros He Hx Hb w. unfold with_.
  pose proof (emits_show P enter He w) as H1.
  destruct (show enter w) as [r1 w1]; simpl in H1.
  specialize (Hb w1). destruct (body w1) as [r w2]; simpl in *.
  eapply extends_trans; [exact H1|]. eapply extends_trans; [exact Hb|].
  apply (emits_show P exit_ Hx w2).
Qed.

Lemma emits_download (P : event -> Prop) label data file_name mime :
  P (Show (download_button label data file_name mime)) ->
  emits P (st_download_button label data file_name mime).
Proof.
  intros H. unfold st_download_button.
  destruct data; try apply emits_raise. apply emits_show, H.
Qed.

Lemma emits_if {A} P (b : bool) (m1 m2 : M A) :
  emits P m1 -> emits P m2 -> emits P (if b then m1 else m2).
Proof. destruct b; auto. Qed.

Lemma emits_weaken {A} (P Q : event -> Prop) (m : M A) :
  (forall ev, P ev -> Q ev) -> emits P m -> emits Q m.
Proof.
  intros HPQ Hm w. destruct (Hm w) as [Hs (new & Ht & Hf)].
  split; [exact Hs|]. exists new. split; [exact Ht|].
  eapply Forall_impl; eauto.
Qed.

(** ** The completion endpoint *)

Section Completion.

Variable E : env.

Lemma session_get_some name v w :
  session_state w !! name = Some v -> session_get name w = (Ok v, w).
Proof. intros H. unfold session_get. rewrite H. reflexivity. Qed.

Lemma emits_post (P : event -> Prop) r : P (Post r) -> emits P (post E r).
Proof. intros H w. unfold post. simpl. apply extends_emit, H. Qed.

Lemma call_llama_emits (P : event -> Prop) prompt :
  (forall r, P (Post r)) -> emits P (call_llama E prompt).
Proof.
  intros HP. unfold call_llama.
  apply emits_bind; [apply emits_session_get|]. intros k.
  apply emits_bind.
  { apply emits_if; [|apply emits_ret].
    apply emits_bind; [apply emits_session_get|]. intros; apply emits_ret. }
  intros h. apply emits_bind; [apply emits_session_get|]. intros u.
  apply emits_bind; [apply emits_post, HP|]. intros r.
  apply emits_if; [|apply emits_raise].
  apply emits_bind; [apply emits_lift|]. intros; apply emits_lift.
Qed.

(** With both keys stored, [call_llama] posts one request and its outcome
    is [llama_reply] of the answer. *)
Lemma call_llama_run prompt w :
  is_Some (session_state w !! "llama_api_key") ->
  is_Some (session_state w !! "llama_endpoint") ->
  call_llama E prompt w =
    (llama_reply
       (requests_post E (trace w) (llama_request (session_state w) prompt)),
     World (session_state w)
       (trace w ++ [Post (llama_request (session_state w) prompt)])).
Proof.
  intros [k Hk] [u Hu]. unfold call_llama, llama_request, llama_headers.
  rewrite (lookup_total_correct _ _ _ Hk), (lookup_total_correct _ _ _ Hu).
  unfold mbind, M_bind. rewrite (session_get_some _ _ _ Hk).
  destruct (Str.truthy k).
  - rewrite (session_get_some _ _ _ Hk). unfold mret, M_ret.
    rewrite (session_get_some _ _ _ Hu). unfold post. simpl.
    destruct (requests_post E _ _) as [r|e]; simpl; [|reflexivity].
    destruct (status_code r =? 200)%Z; [|reflexivity].
    unfold lift. destruct (json r); reflexivity.
  - unfold mret, M_ret.
    rewrite (session_get_some _ _ _ Hu). unfold post. simpl.
    destruct (requests_post E _ _) as [r|e]; simpl; [|reflexivity].
    destruct (status_code r =? 200)%Z; [|reflexivity].
    unfold lift. destruct (json r); reflexivity.
Qed.

End Completion.

Lemma append_assoc (s1 s2 s3 : string) : (s1 +:+ s2) +:+ s3 = s1 +:+ s2 +:+ s3.
Proof.
  induction s1 as [|a s1 IH]; [reflexivity|].
  change (String a ((s1 +:+ s2) +:+ s3) = String a (s1 +:+ s2 +:+ s3)).
  rewrite IH. reflexivity.
Qed.

Lemma contains_here sub post : Str.contains sub (sub +:+ post).
Proof. exists "", post. reflexivity. Qed.

Lemma contains_skip pre sub s :
  Str.contains sub s -> Str.contains sub (pre +:+ s).
Proof.
  intros (p & q & ->). exists (pre +:+ p), q. rewrite append_assoc. reflexivity.
Qed.

Lemma contains_middle pre sub post : Str.contains sub (pre +:+ sub +:+ post).
Proof. exists pre, post. reflexivity. Qed.

Lemma example_store_initialised : initialised Demo.store.
Proof. repeat split; eexists; vm_compute; reflexivity. Qed.

Section CompletionClaims.

Variable E : env.

(** C1.  Whatever the prompt, when the completion endpoint answers with a
    status other than 200 (so in particular with every non-success status),
    [call_llama] raises an [Exception] whose message contains the decimal
    status code; it does not return a value. *)
Theorem call_llama_error_status (prompt : string) (w : world) (r : response) :
  initialised (session_state w) ->
  requests_post E (trace w) (llama_request (session_state w) prompt) = Ok r ->
  status_code r <> 200%Z ->
  exists msg,
    fst (call_llama E prompt w) = Raise (Exception msg) /\
    Str.contains (Str.of_int (status_code r)) msg.
Proof.
  intros (Hk & Hu & _) Hr Hs. rewrite (call_llama_run E prompt w Hk Hu), Hr.
  simpl. apply Z.eqb_neq in Hs. rewrite Hs.
  eexists. split; [reflexivity|]. apply contains_middle.
Qed.

(** C2, as amended.  On a 200 answer whose JSON body is a list with an
    object at index 0, [call_llama] returns that object's [generated_text]
    field as it is; on a 200 answer whose JSON body is an object with a
    string [generated_text] field, it returns that string stripped of
    leading and trailing whitespace. *)
Theorem call_llama_extracts (prompt : string) (w : world) (r : response)
    (body out : value) :
  initialised (session_state w) ->
  requests_post E (trace w) (llama_request (session_state w) prompt) = Ok r ->
  status_code r = 200%Z ->
  json r = Ok body ->
  extracts body out ->
  fst (call_llama E prompt w) = Ok out.
Proof.
  intros (Hk & Hu & _) Hr Hs Hj Hx.
  rewrite (call_llama_run E prompt w Hk Hu), Hr. simpl.
  rewrite Hs, Hj. simpl.
  destruct Hx as [l d field H0 Hf | d s Hf]; unfold generated_text.
  - unfold Py.getitem0. rewrite H0. simpl. rewrite Hf. reflexivity.
  - simpl. rewrite Hf. reflexivity.
Qed.

(** C8, as amended.  On a 200 answer whose JSON body is an object without a
    [generated_text] field, [call_llama] returns the empty string and does
    not raise. *)
Theorem call_llama_missing_field (prompt : string) (w : world) (r : response)
    (d : gmap string value) :
  initialised (session_state w) ->
  requests_post E (trace w) (llama_request (session_state w) prompt) = Ok r ->
  status_code r = 200%Z ->
  json r = Ok (VDict d) ->
  d !! "generated_text" = None ->
  fst (call_llama E prompt w) = Ok (VStr "").
Proof.
  intros (Hk & Hu & _) Hr Hs Hj Hf.
  rewrite (call_llama_run E prompt w Hk Hu), Hr. simpl.
  rewrite Hs, Hj. simpl. unfold generated_text. simpl. rewrite Hf.
  reflexivity.
Qed.

End CompletionClaims.

Lemma call_llama_error_status_witness :
  exists msg,
    fst (call_llama (Demo.answering Demo.unavailable) "hello"
           Demo.start) = Raise (Exception msg) /\
    Str.contains "503" msg.
Proof.
  apply (call_llama_error_status (Demo.answering Demo.unavailable)
           "hello" Demo.start Demo.unavailable).
  - exact example_store_initialised.
  - reflexivity.
  - discriminate.
Defined.

Lemma call_llama_extracts_witness :
  fst (call_llama
         (Demo.answering
            (Demo.ok_json
               (VList [VDict {[ "generated_text" := VStr " draft " ]}])))
         "hello" Demo.start) = Ok (VStr " draft ") /\
  fst (call_llama
         (Demo.answering
            (Demo.ok_json (VDict {[ "generated_text" := VStr " draft " ]})))
         "hello" Demo.start) = Ok (VStr "draft").
Proof.
  split.
  - apply (call_llama_extracts _ "hello" Demo.start
             (Demo.ok_json
                (VList [VDict {[ "generated_text" := VStr " draft " ]}]))
             (VList [VDict {[ "generated_text" := VStr " draft " ]}])).
    + exact example_store_initialised.
    + reflexivity.
    + reflexivity.
    + reflexivity.
    + eapply extracts_list; reflexivity.
  - apply (call_llama_extracts _ "hello" Demo.start
             (Demo.ok_json
                (VDict {[ "generated_text" := VStr " draft " ]}))
             (VDict {[ "generated_text" := VStr " draft " ]})).
    + exact example_store_initialised.
    + reflexivity.
    + reflexivity.
    + reflexivity.
    + change (VStr "draft") with (VStr (Str.strip " draft ")).
      apply extracts_object. reflexivity.
Defined.

(** C2 as it is worded fails on the object shape: the field [" hi"] of the
    object [{"generated_text": " hi"}] is not returned as it is, [call_llama]
    returns ["hi"]. *)
Lemma call_llama_object_not_verbatim :
  ~ (forall (E : env) (prompt : string) (w : world) (r : response),
        initialised (session_state w) ->
        requests_post E (trace w) (llama_request (session_state w) prompt)
          = Ok r ->
        status_code r = 200%Z ->
        (forall (l : list value) (d : gmap string value) (field : value),
            json r = Ok (VList l) -> l !! 0%nat = Some (VDict d) ->
            d !! "generated_text" = Some field ->
            fst (call_llama E prompt w) = Ok field) /\
        (forall (d : gmap string value) (field : value),
            json r = Ok (VDict d) ->
            d !! "generated_text" = Some field ->
            fst (call_llama E prompt w) = Ok field)).
Proof.
  intros H.
  pose (body := VDict {[ "generated_text" := VStr " hi" ]}).
  destruct (H (Demo.answering (Demo.ok_json body)) "hello" Demo.start
              (Demo.ok_json body) example_store_initialised
              eq_refl eq_refl) as [_ Hobj].
  specialize (Hobj {[ "generated_text" := VStr " hi" ]} (VStr " hi")
                eq_refl eq_refl).
  vm_compute in Hobj. discriminate Hobj.
Qed.

Lemma call_llama_missing_field_witness :
  fst (call_llama
         (Demo.answering (Demo.ok_json (VDict {[ "error" := VStr "loading" ]})))
         "hello" Demo.start) = Ok (VStr "").
Proof.
  apply (call_llama_missing_field _ "hello" Demo.start
           (Demo.ok_json (VDict {[ "error" := VStr "loading" ]}))
           {[ "error" := VStr "loading" ]}).
  - exact example_store_initialised.
  - reflexivity.
  - reflexivity.
  - reflexivity.
  - reflexivity.
Defined.

Lemma empty_list_unexpected : ~ expected_shape (VList []).
Proof.
  intros [(l & d & Heq & H0 & _) | (d & Heq & _)].
  - injection Heq as <-. discriminate H0.
  - discriminate Heq.
Qed.

(** C8 as it is worded fails on other unexpected shapes: on a 200 answer
    whose JSON body is the empty list, [call_llama] raises [IndexError]. *)
Lemma call_llama_empty_list_raises :
  ~ (forall (E : env) (prompt : string) (w : world) (r : response)
            (body : value),
        initialised (session_state w) ->
        requests_post E (trace w) (llama_request (session_state w) prompt)
          = Ok r ->
        status_code r = 200%Z ->
        json r = Ok body ->
        ~ expected_shape body ->
        fst (call_llama E prompt w) = Ok (VStr "")).
Proof.
  intros H.
  specialize (H (Demo.answering (Demo.ok_json (VList []))) "hello"
                Demo.start (Demo.ok_json (VList [])) (VList [])
                example_store_initialised eq_refl eq_refl eq_refl
                empty_list_unexpected).
  vm_compute in H. discriminate H.
Qed.

(** What the code does on the empty list. *)
Example empty_list_index_error :
  fst (call_llama (Demo.answering (Demo.ok_json (VList []))) "hello"
         Demo.start)
  = Raise (IndexError "list index out of range").
Proof. reflexivity. Qed.

(** ** Projections of a trace *)

Lemma calls_app tr1 tr2 : calls (tr1 ++ tr2) = calls tr1 ++ calls tr2.
Proof. unfold calls. apply filter_app. Qed.

Lemma calls_cons ev tr :
  calls (ev :: tr) = if is_call ev then ev :: calls tr else calls tr.
Proof. destruct ev; reflexivity. Qed.

Lemma calls_nil : calls [] = [].
Proof. reflexivity. Qed.

Lemma posts_app tr1 tr2 : posts (tr1 ++ tr2) = posts tr1 ++ posts tr2.
Proof. unfold posts. apply omap_app. Qed.

Lemma warnings_app tr1 tr2 :
  warnings (tr1 ++ tr2) = warnings tr1 ++ warnings tr2.
Proof. unfold warnings. apply omap_app. Qed.

Lemma buttons_app tr1 tr2 : buttons (tr1 ++ tr2) = buttons tr1 ++ buttons tr2.
Proof. unfold buttons. apply omap_app. Qed.

Lemma buttons_cons ev tr :
  buttons (ev :: tr) =
    match ev with
    | Show (button _ d) => d :: buttons tr
    | _ => buttons tr
    end.
Proof. destruct ev as [| | |d]; try reflexivity. destruct d; reflexivity. Qed.

Lemma warnings_cons ev tr :
  warnings (ev :: tr) =
    match ev with
    | Show (warning s) => s :: warnings tr
    | _ => warnings tr
    end.
Proof. destruct ev as [| | |d]; try reflexivity. destruct d; reflexivity. Qed.

Lemma calls_display tr : Forall (fun ev => is_call ev = false) tr -> calls tr = [].
Proof.
  induction 1 as [|ev tr Hev _ IH]; [reflexivity|].
  destruct ev; try discriminate Hev. exact IH.
Qed.

Lemma posts_none tr :
  Forall (fun ev => match ev with Post _ => False | _ => True end) tr ->
  posts tr = [].
Proof.
  induction 1 as [|ev tr Hev _ IH]; [reflexivity|].
  unfold posts in *. simpl. destruct ev; try contradiction; exact IH.
Qed.

Lemma warnings_none tr :
  Forall (fun ev => match ev with Show (warning _) => False | _ => True end) tr ->
  warnings tr = [].
Proof.
  induction 1 as [|ev tr Hev _ IH]; [reflexivity|].
  unfold warnings in *. simpl.
  destruct ev as [| | |d]; try exact IH. destruct d; try contradiction; exact IH.
Qed.

Lemma buttons_none tr :
  Forall (fun ev => match ev with Show (button _ _) => False | _ => True end) tr ->
  buttons tr = [].
Proof.
  induction 1 as [|ev tr Hev _ IH]; [reflexivity|].
  unfold buttons in *. simpl.
  destruct ev as [| | |d]; try exact IH. destruct d; try contradiction; exact IH.
Qed.

(** ** The research step *)

Section Research.

Variable repr : value -> string.
Variable E : env.

Lemma on_activity_emits (P : event -> Prop) activity :
  (forall d, plain d -> P (Show d)) -> emits P (on_activity repr activity).
Proof.
  intros HP. unfold on_activity.
  apply emits_bind; [apply emits_lift|]. intros t.
  apply emits_bind; [apply emits_lift|]. intros m.
  apply emits_show, HP. exact I.
Qed.

Lemma report_emits (P : event -> Prop) activities :
  (forall d, plain d -> P (Show d)) -> emits P (report (on_activity repr) activities).
Proof.
  intros HP. induction activities as [|a rest IH]; simpl.
  - apply emits_ret.
  - apply emits_bind; [apply on_activity_emits, HP|]. intros _. exact IH.
Qed.

Lemma FirecrawlApp_emits (P : event -> Prop) api_key :
  P (NewFirecrawlApp api_key) -> emits P (FirecrawlApp E api_key).
Proof. intros HP w. unfold FirecrawlApp. simpl. apply extends_emit, HP. Qed.

Lemma app_deep_research_emits (P : event -> Prop) app query params :
  (forall d, plain d -> P (Show d)) -> P (Crawl app query params) ->
  emits P (app_deep_research E app query params (on_activity repr)).
Proof.
  intros HS HC w. unfold app_deep_research.
  destruct (firecrawl_deep_research E (trace w) app query params)
    as [activities outcome].
  pose proof (report_emits P activities HS
                (World (session_state w) (trace w ++ [Crawl app query params])))
    as Hr.
  destruct (report _ _ _) as [[[]|e] w']; simpl in *;
    (eapply extends_trans; [apply (extends_emit P _ w HC)|exact Hr]).
Qed.

Lemma crawl_emits (P : event -> Prop) query max_depth time_limit max_urls :
  (forall d, plain d -> P (Show d)) ->
  (forall k, P (NewFirecrawlApp k)) ->
  (forall k, P (Crawl k query (CrawlParams max_depth time_limit max_urls))) ->
  emits P (crawl repr E query max_depth time_limit max_urls).
Proof.
  intros HS HN HC. unfold crawl.
  apply emits_bind; [apply emits_session_get|]. intros k.
  apply emits_bind; [apply FirecrawlApp_emits, HN|]. intros app.
  apply emits_with; [apply HS; exact I|apply HS; exact I|].
  apply app_deep_research_emits; [exact HS|apply HC].
Qed.

Lemma deep_research_emits (P : event -> Prop) query max_depth time_limit
    max_urls :
  (forall d, plain d -> P (Show d)) ->
  (forall k, P (NewFirecrawlApp k)) ->
  (forall k, P (Crawl k query (CrawlParams max_depth time_limit max_urls))) ->
  emits P (deep_research repr E query max_depth time_limit max_urls).
Proof.
  intros HS HN HC. unfold deep_research. apply emits_try.
  - apply emits_bind; [apply crawl_emits; assumption|]. intros r.
    apply emits_lift.
  - intros e. apply emits_bind; [apply emits_show, HS; exact I|]. intros _.
    apply emits_ret.
Qed.

Lemma research_step_emits (P : event -> Prop) topic :
  (forall d, plain d -> P (Show d)) ->
  (forall k, P (NewFirecrawlApp k)) ->
  (forall k, P (Crawl k topic (CrawlParams 3 180 10))) ->
  emits P (research_step repr E topic).
Proof.
  intros HS HN HC. unfold research_step.
  apply emits_with; [apply HS; exact I|apply HS; exact I|].
  apply deep_research_emits; assumption.
Qed.

Lemma run_research_process_emits (P : event -> Prop) topic :
  (forall d, plain d -> P (Show d)) ->
  (forall k, P (NewFirecrawlApp k)) ->
  (forall k, P (Crawl k topic (CrawlParams 3 180 10))) ->
  (forall r, P (Post r)) ->
  emits P (run_research_process repr E topic).
Proof.
  intros HS HN HC HP. unfold run_research_process.
  apply emits_bind; [apply research_step_emits; assumption|]. intros r.
  apply emits_if; [apply emits_ret|].
  destruct r as [fa n srcs|msg]; [|apply emits_raise].
  apply emits_bind; [apply call_llama_emits, HP|]. intros draft.
  apply emits_bind.
  { apply emits_with; [apply HS; exact I|apply HS; exact I|].
    apply emits_show, HS; exact I. }
  intros _. apply emits_bind; [|intros; apply emits_ret].
  apply emits_with; [apply HS; exact I|apply HS; exact I|]. apply call_llama_emits, HP.
Qed.

End Research.

Section ResearchClaims.

Variable repr : value -> string.
Variable E : env.

(** C3.  When step one returns a failure record, [run_research_process]
    returns the literal failure string, stops in the world step one left,
    and no request was posted to the completion endpoint. *)
Theorem research_failure_short_circuits (topic : string) (w w1 : world)
    (r : research_result) :
  research_step repr E topic w = (Ok r, w1) ->
  success r = false ->
  run_research_process repr E topic w
    = (Ok (VStr "Research failed. Please try again."), w1) /\
  posts (trace w1) = posts (trace w).
Proof.
  intros Hstep Hfail. split.
  - unfold run_research_process, mbind, M_bind. rewrite Hstep, Hfail.
    reflexivity.
  - pose proof (research_step_emits repr E
                  (fun ev => match ev with Post _ => False | _ => True end)
                  topic (fun _ _ => I) (fun _ => I) (fun _ => I) w) as Hx.
    rewrite Hstep in Hx. destruct Hx as [_ (new & Ht & Hnew)]. simpl in Ht.
    rewrite Ht, posts_app, (posts_none new Hnew), app_nil_r. reflexivity.
Qed.

(** C6.  Every call of the crawling service that a run of
    [run_research_process] adds to the trace carries the topic as query and
    the limits [maxDepth = 3], [timeLimit = 180], [maxUrls = 10]. *)
Theorem crawl_limits (topic : string) (w : world) :
  exists new,
    trace (snd (run_research_process repr E topic w)) = trace w ++ new /\
    Forall (fun ev =>
              match ev with
              | Crawl _ query params =>
                  query = topic /\ params = CrawlParams 3 180 10
              | _ => True
              end) new.
Proof.
  apply (run_research_process_emits repr E
           (fun ev =>
              match ev with
              | Crawl _ query params =>
                  query = topic /\ params = CrawlParams 3 180 10
              | _ => True
              end) topic); auto.
Qed.

End ResearchClaims.

Lemma research_failure_short_circuits_witness :
  run_research_process Demo.repr
    (Demo.crawl_failing Demo.unavailable) "quantum computing"
    Demo.start
  = (Ok (VStr "Research failed. Please try again."),
     snd (research_step Demo.repr
            (Demo.crawl_failing Demo.unavailable) "quantum computing"
            Demo.start)) /\
  posts (trace (snd (research_step Demo.repr
                       (Demo.crawl_failing Demo.unavailable)
                       "quantum computing" Demo.start)))
  = posts (trace Demo.start).
Proof.
  apply (research_failure_short_circuits Demo.repr
           (Demo.crawl_failing Demo.unavailable) "quantum computing"
           Demo.start _ (Failed "Deep research failed: timeout")).
  - vm_compute. reflexivity.
  - reflexivity.
Defined.

(** A failing crawl: the record carries the SDK's message and the user sees
    it. *)
Example deep_research_failure :
  deep_research Demo.repr (Demo.crawl_failing Demo.unavailable)
    "quantum computing" 3 180 10 Demo.start
  = (Ok (Failed "Deep research failed: timeout"),
     World Demo.store
       [NewFirecrawlApp "fc-key";
        Show (spinner_enter "Performing deep research...");
        Crawl "fc-key" "quantum computing" (CrawlParams 3 180 10);
        Show spinner_exit;
        Show (error "Deep research error: Deep research failed: timeout")]).
Proof. vm_compute. reflexivity. Qed.

(** A crawl result without [data]: the [KeyError] is caught as well. *)
Example deep_research_malformed :
  fst (deep_research Demo.repr
         (Env (fun _ _ => Ok Demo.unavailable) (fun _ _ => Ok tt)
              (fun _ _ _ _ => ([], Ok (VDict ∅))))
         "quantum computing" 3 180 10 Demo.start)
  = Ok (Failed "'data'").
Proof. vm_compute. reflexivity. Qed.

Example deep_research_success :
  fst (deep_research Demo.repr (Demo.answering Demo.unavailable)
         "quantum computing" 3 180 10 Demo.start)
  = Ok (Research (VStr "X") 0 (VList [])).
Proof. vm_compute. reflexivity. Qed.

(** ** The sequence of remote calls *)

Lemma with_run {A} enter exit_ (body : M A) w :
  with_ enter exit_ body w =
    let after := body (World (session_state w) (trace w ++ [Show enter])) in
    (fst after,
     World (session_state (snd after)) (trace (snd after) ++ [Show exit_])).
Proof.
  unfold with_, show, emit. simpl. destruct (body _) as [r w2]. reflexivity.
Qed.

Section Sequence.

Variable repr : value -> string.
Variable E : env.

Lemma app_deep_research_trace app query params w :
  exists shows,
    Forall (fun ev => is_call ev = false) shows /\
    snd (app_deep_research E app query params (on_activity repr) w)
      = World (session_state w) (trace w ++ Crawl app query params :: shows).
Proof.
  unfold app_deep_research.
  destruct (firecrawl_deep_research E (trace w) app query params)
    as [activities outcome].
  destruct (report_emits repr (fun ev => is_call ev = false) activities
              (fun _ _ => eq_refl)
              (World (session_state w) (trace w ++ [Crawl app query params])))
    as [Hs (new & Ht & Hnew)].
  exists new. split; [exact Hnew|].
  destruct (report _ _ _) as [[[]|e] [ss' tr']]; simpl in *; subst;
    rewrite <- app_assoc; reflexivity.
Qed.

Lemma crawl_ok_calls query max_depth time_limit max_urls w key results w1 :
  session_state w !! "firecrawl_api_key" = Some key ->
  crawl repr E query max_depth time_limit max_urls w = (Ok results, w1) ->
  session_state w1 = session_state w /\
  calls (trace w1) =
    calls (trace w) ++
      [NewFirecrawlApp key;
       Crawl key query (CrawlParams max_depth time_limit max_urls)].
Proof.
  intros Hk. unfold crawl, mbind, M_bind.
  rewrite (session_get_some _ _ _ Hk). unfold FirecrawlApp.
  destruct (firecrawl_app E (trace w) key) as [[]|e]; [|discriminate].
  rewrite with_run. cbn [session_state trace].
  set (w0 := World _ _).
  destruct (app_deep_research_trace key query
              (CrawlParams max_depth time_limit max_urls) w0)
    as (shows & Hshows & Hw).
  destruct (app_deep_research _ _ _ _ _ w0) as [r w2]. simpl in *.
  intros H. injection H as _ <-. subst w2. subst w0. simpl. split; [reflexivity|].
  rewrite !calls_app, !calls_cons, calls_nil, (calls_display shows Hshows).
  simpl. rewrite !app_nil_r, <- app_assoc. reflexivity.
Qed.

Lemma deep_research_success_crawl query max_depth time_limit max_urls w
    final_analysis sources_count sources w1 :
  deep_research repr E query max_depth time_limit max_urls w
    = (Ok (Research final_analysis sources_count sources), w1) ->
  exists results,
    crawl repr E query max_depth time_limit max_urls w = (Ok results, w1).
Proof.
  unfold deep_research, try_except, mbind, M_bind.
  destruct (crawl _ _ _ _ _ _ w) as [[results|e] w'].
  - unfold lift. destruct (crawl_record results).
    + intros H. injection H as _ <-. eauto.
    + unfold show, emit, mret, M_ret. simpl. discriminate.
  - unfold show, emit, mret, M_ret. simpl. discriminate.
Qed.

Lemma research_step_success_calls topic w key final_analysis sources_count
    sources w1 :
  session_state w !! "firecrawl_api_key" = Some key ->
  research_step repr E topic w
    = (Ok (Research final_analysis sources_count sources), w1) ->
  session_state w1 = session_state w /\
  calls (trace w1) =
    calls (trace w) ++
      [NewFirecrawlApp key; Crawl key topic (CrawlParams 3 180 10)].
Proof.
  intros Hk. unfold research_step. rewrite with_run.
  set (w0 := World _ _).
  destruct (deep_research repr E topic 3 180 10 w0) as [r w2] eqn:Hd.
  simpl. intros H. injection H as -> <-.
  destruct (deep_research_success_crawl _ _ _ _ _ _ _ _ _ Hd)
    as (results & Hc).
  destruct (crawl_ok_calls topic 3 180 10 w0 key results w2 Hk Hc)
    as [Hs Hcalls].
  simpl. split; [exact Hs|].
  rewrite calls_app, Hcalls. subst w0. simpl.
  rewrite calls_app, !calls_cons, calls_nil. simpl.
  rewrite !app_nil_r. reflexivity.
Qed.

Lemma initial_prompt_embeds topic final_analysis sources :
  Str.contains (str repr final_analysis)
    (initial_prompt repr topic final_analysis sources) /\
  Str.contains (str repr sources)
    (initial_prompt repr topic final_analysis sources).
Proof.
  unfold initial_prompt. split.
  - do 10 apply contains_skip. apply contains_here.
  - do 15 apply contains_skip. apply contains_here.
Qed.

Lemma enhancement_prompt_embeds initial_report :
  Str.contains (str repr initial_report)
    (enhancement_prompt repr initial_report).
Proof.
  unfold enhancement_prompt. do 14 apply contains_skip. apply contains_here.
Qed.

End Sequence.

Section SequenceClaim.

Variable repr : value -> string.
Variable E : env.

(** C4.  When step one succeeds with an analysis and a source list and the
    first completion call returns a draft, a run of [run_research_process]
    makes exactly these remote calls, in this order: the crawl of the topic
    (through a fresh Firecrawl application), a POST of the first prompt,
    which embeds the analysis and the sources, and a POST of the
    enhancement prompt, which embeds the draft; its outcome is the outcome
    of the second [call_llama], unchanged. *)
Theorem run_research_process_sequence (topic : string) (w w1 w2 : world)
    (final_analysis sources draft : value) (sources_count : Z) :
  initialised (session_state w) ->
  research_step repr E topic w
    = (Ok (Research final_analysis sources_count sources), w1) ->
  call_llama E (initial_prompt repr topic final_analysis sources) w1
    = (Ok draft, w2) ->
  let w3 :=
    World (session_state w2)
      (trace w2 ++
         [Show (expander_enter "View Initial Research Report");
          Show (markdown draft);
          Show expander_exit;
          Show (spinner_enter
                  "Enhancing the report with additional information...")]) in
  let key := session_state w !!! "firecrawl_api_key" in
  fst (run_research_process repr E topic w)
    = fst (call_llama E (enhancement_prompt repr draft) w3) /\
  calls (trace (snd (run_research_process repr E topic w)))
    = calls (trace w) ++
        [NewFirecrawlApp key;
         Crawl key topic (CrawlParams 3 180 10);
         Post (llama_request (session_state w)
                 (initial_prompt repr topic final_analysis sources));
         Post (llama_request (session_state w)
                 (enhancement_prompt repr draft))] /\
  Str.contains (str repr final_analysis)
    (initial_prompt repr topic final_analysis sources) /\
  Str.contains (str repr sources)
    (initial_prompt repr topic final_analysis sources) /\
  Str.contains (str repr draft) (enhancement_prompt repr draft).
Proof.
  intros (Hk & Hu & [key' Hf]) Hstep Hcall1 w3 key.
  subst key. rewrite (lookup_total_correct _ _ _ Hf).
  destruct (research_step_success_calls repr E topic w key' _ _ _ w1 Hf Hstep)
    as [Hs1 Hc1].
  assert (Hrun :
    run_research_process repr E topic w
    = (fst (call_llama E (enhancement_prompt repr draft) w3),
       World (session_state (snd (call_llama E (enhancement_prompt repr draft) w3)))
         (trace (snd (call_llama E (enhancement_prompt repr draft) w3))
            ++ [Show spinner_exit]))).
  { unfold run_research_process, mbind, M_bind. rewrite Hstep. simpl.
    rewrite Hcall1. rewrite with_run. cbn [session_state trace].
    rewrite <- !app_assoc. cbn [app]. fold w3.
    destruct (call_llama E (enhancement_prompt repr draft) w3) as [[v|e] w4];
      reflexivity. }
  rewrite Hrun. simpl. split; [reflexivity|].
  split; [|split; [apply initial_prompt_embeds|
                   split; [apply initial_prompt_embeds|
                           apply enhancement_prompt_embeds]]].
  rewrite call_llama_run in Hcall1 by (rewrite Hs1; assumption).
  injection Hcall1 as _ <-.
  rewrite call_llama_run by (subst w3; simpl; rewrite Hs1; assumption).
  subst w3. simpl. rewrite Hs1.
  rewrite !calls_app, !calls_cons, !calls_nil. simpl.
  rewrite Hc1, !app_nil_r, <- !app_assoc. reflexivity.
Qed.

End SequenceClaim.

Lemma run_research_process_sequence_witness :
  fst (run_research_process Demo.repr Demo.reporting "quantum computing"
         Demo.start) = Ok (VStr "report") /\
  calls (trace (snd (run_research_process Demo.repr Demo.reporting
                       "quantum computing" Demo.start)))
  = [NewFirecrawlApp "fc-key";
     Crawl "fc-key" "quantum computing" (CrawlParams 3 180 10);
     Post (llama_request Demo.store
             (initial_prompt Demo.repr "quantum computing" (VStr "X")
                (VList [])));
     Post (llama_request Demo.store
             (enhancement_prompt Demo.repr (VStr "report")))].
Proof.
  pose proof
    (run_research_process_sequence Demo.repr Demo.reporting
       "quantum computing" Demo.start
       (snd (research_step Demo.repr Demo.reporting "quantum computing"
               Demo.start))
       (snd (call_llama Demo.reporting
               (initial_prompt Demo.repr "quantum computing" (VStr "X")
                  (VList []))
               (snd (research_step Demo.repr Demo.reporting
                       "quantum computing" Demo.start))))
       (VStr "X") (VList []) (VStr "report") 0) as H.
  destruct H as (Hout & Hcalls & _).
  - exact example_store_initialised.
  - vm_compute. reflexivity.
  - vm_compute. reflexivity.
  - split; [rewrite Hout; vm_compute; reflexivity|exact Hcalls].
Defined.

(** An error of the first completion call leaves [run_research_process] as
    it is: there is no second call. *)
Example first_call_error_propagates :
  fst (run_research_process Demo.repr
         (Demo.answering Demo.unavailable) "quantum computing"
         Demo.start)
  = Raise (Exception "LLaMA API error: 503 - Service Unavailable") /\
  length (posts (trace (snd (run_research_process Demo.repr
                               (Demo.answering Demo.unavailable)
                               "quantum computing" Demo.start)))) = 1%nat.
Proof. split; vm_compute; reflexivity. Qed.

(** ** The session store *)

Lemma ensure_lookup_same name (ss : gmap string string) :
  ensure name ss !! name = Some (default "" (ss !! name)).
Proof.
  unfold ensure. destruct (ss !! name) as [v|] eqn:Hv.
  - rewrite bool_decide_eq_true_2 by eauto. rewrite Hv. reflexivity.
  - rewrite bool_decide_eq_false_2 by (intros [v Hv']; discriminate).
    apply lookup_insert_eq.
Qed.

Lemma ensure_lookup_other name k (ss : gmap string string) :
  name <> k -> ensure name ss !! k = ss !! k.
Proof.
  intros Hne. unfold ensure. destruct (bool_decide _); [reflexivity|].
  apply lookup_insert_ne, Hne.
Qed.

Lemma ensured_lookup name (ss : gmap string string) :
  name ∈ credential_keys ->
  ensured ss !! name = Some (default "" (ss !! name)).
Proof.
  unfold credential_keys, ensured. rewrite !elem_of_cons, elem_of_nil.
  intros [->|[->|[->|[]]]].
  - rewrite ensure_lookup_other by discriminate. rewrite ensure_lookup_same.
    rewrite ensure_lookup_other by discriminate. reflexivity.
  - rewrite !ensure_lookup_other by discriminate. apply ensure_lookup_same.
  - rewrite ensure_lookup_same. rewrite !ensure_lookup_other by discriminate.
    reflexivity.
Qed.

Lemma ensured_initialised (ss : gmap string string) : initialised (ensured ss).
Proof.
  repeat split; (eexists; apply ensured_lookup; unfold credential_keys;
                 rewrite !elem_of_cons; auto).
Qed.

Lemma keep_or_set_lookup_same name v (ss : gmap string string) :
  keep_or_set name v ss !! name = if Str.truthy v then Some v else ss !! name.
Proof.
  unfold keep_or_set. destruct (Str.truthy v); [apply lookup_insert_eq|reflexivity].
Qed.

Lemma keep_or_set_lookup_other name k v (ss : gmap string string) :
  name <> k -> keep_or_set name v ss !! k = ss !! k.
Proof.
  intros Hne. unfold keep_or_set. destruct (Str.truthy v); [|reflexivity].
  apply lookup_insert_ne, Hne.
Qed.

Lemma updated_lookup i name (ss : gmap string string) :
  name ∈ credential_keys ->
  updated i ss !! name =
    if Str.truthy (entered i name) then Some (entered i name) else ss !! name.
Proof.
  unfold credential_keys, updated. rewrite !elem_of_cons, elem_of_nil.
  intros [->|[->|[->|[]]]]; unfold entered; simpl.
  - rewrite !keep_or_set_lookup_other by discriminate.
    apply keep_or_set_lookup_same.
  - rewrite keep_or_set_lookup_other by discriminate.
    rewrite keep_or_set_lookup_same.
    rewrite keep_or_set_lookup_other by discriminate. reflexivity.
  - rewrite keep_or_set_lookup_same.
    rewrite !keep_or_set_lookup_other by discriminate. reflexivity.
Qed.

Lemma truthy_empty s : Str.truthy s = false <-> s = "".
Proof. destruct s; simpl; split; intros H; congruence. Qed.

Lemma truthy_nonempty s : Str.truthy s = true <-> s <> "".
Proof. destruct s; simpl; split; intros H; congruence. Qed.

(** ** The page *)

Lemma init_key_run name w :
  init_key name w = (Ok tt, World (ensure name (session_state w)) (trace w)).
Proof.
  destruct w as [ss tr]. unfold init_key, mbind, M_bind, session_has, ensure.
  simpl. destruct (bool_decide (is_Some (ss !! name))); reflexivity.
Qed.

Lemma initialise_session_run w :
  initialise_session w = (Ok tt, World (ensured (session_state w)) (trace w)).
Proof.
  unfold initialise_session, mbind, M_bind. rewrite !init_key_run. reflexivity.
Qed.

Lemma sidebar_run i w :
  initialised (session_state w) ->
  exists shown,
    sidebar i w = (Ok tt, World (updated i (session_state w)) (trace w ++ shown)) /\
    Forall (fun ev => match ev with Show d => plain d | _ => False end) shown.
Proof.
  destruct w as [ss tr]. simpl. intros ([k1 H1] & [k2 H2] & [k3 H3]).
  unfold sidebar. rewrite with_run.
  unfold mbind, M_bind, st_text_input, show, emit, session_get, session_set,
    mret, M_ret, updated, keep_or_set. simpl.
  rewrite H2. simpl. rewrite H1. simpl. rewrite H3. simpl.
  destruct (Str.truthy (in_llama_endpoint i)),
    (Str.truthy (in_llama_api_key i)), (Str.truthy (in_firecrawl_api_key i));
    simpl; rewrite <- !app_assoc; cbn [app];
    (eexists; split; [reflexivity|repeat constructor]).
Qed.

Section Page.

Variable repr : value -> string.
Variable E : env.

Lemma required_inputs_run topic w endpoint crawl_key :
  session_state w !! "llama_endpoint" = Some endpoint ->
  session_state w !! "firecrawl_api_key" = Some crawl_key ->
  exists required,
    required_inputs topic w = (Ok required, w) /\
    Str.truthy required
      = Str.truthy topic && Str.truthy endpoint && Str.truthy crawl_key.
Proof.
  intros He Hc. unfold required_inputs, mbind, M_bind.
  destruct (Str.truthy topic) eqn:Ht.
  - rewrite (session_get_some _ _ _ He).
    destruct (Str.truthy endpoint) eqn:Hen.
    + rewrite (session_get_some _ _ _ Hc). eexists. split; [reflexivity|].
      reflexivity.
    + eexists. split; [reflexivity|]. exact Hen.
  - eexists. split; [reflexivity|]. exact Ht.
Qed.

Lemma research_and_render_emits (P : event -> Prop) topic :
  (forall d, plain d -> P (Show d)) ->
  (forall k, P (NewFirecrawlApp k)) ->
  (forall k, P (Crawl k topic (CrawlParams 3 180 10))) ->
  (forall r, P (Post r)) ->
  emits P (research_and_render repr E topic).
Proof.
  intros HS HN HC HP. unfold research_and_render. apply emits_try.
  - apply emits_bind; [apply emits_show, HS; exact I|]. intros _.
    apply emits_bind; [apply run_research_process_emits; assumption|].
    intros report.
    apply emits_bind; [apply emits_show, HS; exact I|]. intros _.
    apply emits_bind; [apply emits_show, HS; exact I|]. intros _.
    apply emits_download, HS; exact I.
  - intros e. apply emits_show, HS; exact I.
Qed.

Lemma start_research_emits (P : event -> Prop) topic :
  (forall d, plain d -> P (Show d)) ->
  (forall s, P (Show (warning s))) ->
  (forall k, P (NewFirecrawlApp k)) ->
  (forall k, P (Crawl k topic (CrawlParams 3 180 10))) ->
  (forall r, P (Post r)) ->
  emits P (start_research repr E topic).
Proof.
  intros HS HW HN HC HP. unfold start_research.
  apply emits_if; [apply emits_show, HW|].
  apply emits_bind; [apply emits_session_get|]. intros fk.
  apply emits_if; [apply emits_show, HW|].
  apply emits_bind; [apply emits_session_get|]. intros ep.
  apply emits_if; [apply emits_show, HW|].
  apply research_and_render_emits; assumption.
Qed.

(** The button is shown once, with its flag computed from the topic and the
    stored endpoint and crawl key; the session store is left as it is. *)
Lemma trigger_run topic pressed w endpoint crawl_key :
  session_state w !! "llama_endpoint" = Some endpoint ->
  session_state w !! "firecrawl_api_key" = Some crawl_key ->
  exists new,
    session_state (snd (trigger repr E topic pressed w)) = session_state w /\
    trace (snd (trigger repr E topic pressed w)) =
      trace w ++
        Show (button "Start Research"
                (negb (Str.truthy topic && Str.truthy endpoint
                       && Str.truthy crawl_key))) :: new /\
    Forall (fun ev => match ev with Show (button _ _) => False | _ => True end)
      new.
Proof.
  intros He Hc. unfold trigger, mbind, M_bind.
  destruct (required_inputs_run topic w endpoint crawl_key He Hc)
    as (required & -> & ->).
  unfold st_button, mbind, M_bind, show, emit, mret, M_ret. simpl.
  destruct pressed.
  - set (w1 := World _ _).
    destruct (start_research_emits
                (fun ev => match ev with Show (button _ _) => False | _ => True end)
                topic) with (w := w1) as [Hs (new & Ht & Hnew)].
    + intros d Hd. destruct d; try exact I. destruct Hd.
    + intros; exact I.
    + intros; exact I.
    + intros; exact I.
    + intros; exact I.
    + exists new. rewrite Hs, Ht. subst w1. simpl.
      rewrite <- app_assoc. auto.
  - exists []. simpl. auto.
Qed.

End Page.

Lemma stored_lookup i name (ss : gmap string string) :
  name ∈ credential_keys ->
  updated i (ensured ss) !! name =
    Some (if Str.truthy (entered i name) then entered i name
          else default "" (ss !! name)).
Proof.
  intros Hin. rewrite (updated_lookup i name _ Hin), (ensured_lookup name ss Hin).
  destruct (Str.truthy (entered i name)); reflexivity.
Qed.

Section PageRun.

Variable repr : value -> string.
Variable E : env.

(** One run of the page: the store it leaves, and the one button it shows
    among the events it adds. *)
Lemma page_run i w :
  let ss' := updated i (ensured (session_state w)) in
  exists shown new,
    session_state (snd (page repr E i w)) = ss' /\
    trace (snd (page repr E i w)) =
      trace w ++ shown ++
        Show (button "Start Research"
                (negb (Str.truthy (in_research_topic i)
                       && Str.truthy (ss' !!! "llama_endpoint")
                       && Str.truthy (ss' !!! "firecrawl_api_key")))) :: new /\
    buttons shown = [] /\ buttons new = [].
Proof.
  intros ss'. destruct w as [ss tr]. simpl in ss'.
  assert (Hin1 : "llama_endpoint" ∈ credential_keys)
    by (unfold credential_keys; rewrite !elem_of_cons; auto).
  assert (Hin2 : "firecrawl_api_key" ∈ credential_keys)
    by (unfold credential_keys; rewrite !elem_of_cons; auto).
  pose proof (stored_lookup i _ ss Hin1) as He.
  pose proof (stored_lookup i _ ss Hin2) as Hc.
  fold ss' in He, Hc.
  rewrite (lookup_total_correct _ _ _ He), (lookup_total_correct _ _ _ Hc).
  unfold page, mbind, M_bind. unfold show at 1, emit. simpl.
  rewrite initialise_session_run. simpl.
  destruct (sidebar_run i (World (ensured ss) (tr ++ [Show (set_page_config "LLaMA Deep Research Agent" "📘" "wide")])) (ensured_initialised ss))
    as (shown & -> & Hshown).
  simpl. fold ss'. unfold st_text_input, mbind, M_bind, show, emit, mret, M_ret.
  simpl. set (w5 := World _ _).
  destruct (trigger_run repr E (in_research_topic i) (in_start_research i) w5
              _ _ He Hc) as (new & Hs & Ht & Hnew).
  assert (Hb : buttons shown = []).
  { apply buttons_none. eapply Forall_impl; [exact Hshown|].
    intros [| | |d]; try contradiction. destruct d; simpl; tauto. }
  destruct (trigger repr E (in_research_topic i) (in_start_research i) w5)
    as [[[]|e] w6]; simpl in *.
  - eexists (_ :: shown ++ [_; _; _]), (new ++ [_; _]).
    split; [exact Hs|]. split.
    + rewrite Ht. subst w5. simpl. rewrite <- ?app_assoc. simpl.
      rewrite <- ?app_assoc. reflexivity.
    + split.
      * rewrite buttons_cons, buttons_app, Hb. reflexivity.
      * rewrite buttons_app, (buttons_none new Hnew). reflexivity.
  - eexists (_ :: shown ++ [_; _; _]), new.
    split; [exact Hs|]. split.
    + rewrite Ht. subst w5. simpl. rewrite <- ?app_assoc. simpl.
      rewrite <- ?app_assoc. reflexivity.
    + split.
      * rewrite buttons_cons, buttons_app, Hb. reflexivity.
      * apply buttons_none, Hnew.
Qed.

End PageRun.

Section PageClaims.

Variable repr : value -> string.
Variable E : env.

(** C7.  A run of the page shows the Start Research button once.  It is
    disabled exactly when the topic, the stored completion endpoint or the
    stored crawl-service key is the empty string, and enabled exactly when
    the three are non-empty; the completion-service key plays no part. *)
Theorem start_button_disabled (i : inputs) (w : world) :
  let w' := snd (page repr E i w) in
  let topic := in_research_topic i in
  let endpoint := session_state w' !!! "llama_endpoint" in
  let crawl_key := session_state w' !!! "firecrawl_api_key" in
  exists new disabled,
    trace w' = trace w ++ new /\
    buttons new = [disabled] /\
    (disabled = true <-> topic = "" \/ endpoint = "" \/ crawl_key = "") /\
    (disabled = false <-> topic <> "" /\ endpoint <> "" /\ crawl_key <> "").
Proof.
  intros w' topic endpoint crawl_key.
  destruct (page_run repr E i w) as (shown & new & Hs & Ht & Hb1 & Hb2).
  subst endpoint crawl_key w'. rewrite Hs. clear Hs.
  set (endpoint := _ !!! "llama_endpoint").
  set (crawl_key := _ !!! "firecrawl_api_key").
  fold endpoint crawl_key in Ht. fold topic in Ht.
  eexists _, _. split; [exact Ht|]. split.
  - rewrite buttons_app, buttons_cons, Hb1, Hb2. reflexivity.
  - rewrite negb_true_iff, negb_false_iff, !andb_false_iff, !andb_true_iff,
      !truthy_empty, !truthy_nonempty. tauto.
Qed.

(** C9.  When the body of the button runs with the three keys in the store:
    if the topic, the stored crawl-service key or the stored endpoint is
    empty, it shows one warning, the one of the first missing input, and
    does nothing else, so no remote call is made; if none is empty, no
    warning is shown. *)
Theorem start_research_warns (topic : string) (w : world) :
  initialised (session_state w) ->
  let crawl_key := session_state w !!! "firecrawl_api_key" in
  let endpoint := session_state w !!! "llama_endpoint" in
  (topic = "" \/ crawl_key = "" \/ endpoint = "" ->
   exists msg,
     missing topic crawl_key endpoint msg /\
     start_research repr E topic w
       = (Ok tt, World (session_state w) (trace w ++ [Show (warning msg)])) /\
     calls (trace (snd (start_research repr E topic w))) = calls (trace w)) /\
  (topic <> "" /\ crawl_key <> "" /\ endpoint <> "" ->
   exists new,
     trace (snd (start_research repr E topic w)) = trace w ++ new /\
     warnings new = []).
Proof.
  intros (_ & [ep Hep] & [fk Hfk]) crawl_key endpoint.
  subst crawl_key endpoint.
  rewrite (lookup_total_correct _ _ _ Hep), (lookup_total_correct _ _ _ Hfk).
  assert (Hwarn : forall msg,
    calls (trace w ++ [Show (warning msg)]) = calls (trace w)).
  { intros msg. rewrite calls_app, calls_cons, calls_nil. simpl.
    apply app_nil_r. }
  unfold start_research.
  destruct (Str.truthy topic) eqn:Ht; simpl.
  2: { apply truthy_empty in Ht. split.
       - intros _. eexists. split; [apply missing_topic, Ht|].
         split; [reflexivity|apply Hwarn].
       - intros (Hc & _). contradiction. }
  apply truthy_nonempty in Ht.
  unfold mbind, M_bind. rewrite (session_get_some _ _ _ Hfk).
  destruct (Str.truthy fk) eqn:Hf; simpl.
  2: { apply truthy_empty in Hf. split.
       - intros _. eexists. split; [apply missing_crawl_key; assumption|].
         split; [reflexivity|apply Hwarn].
       - intros (_ & Hc & _). contradiction. }
  apply truthy_nonempty in Hf.
  rewrite (session_get_some _ _ _ Hep).
  destruct (Str.truthy ep) eqn:He; simpl.
  2: { apply truthy_empty in He. split.
       - intros _. eexists. split; [apply missing_endpoint; assumption|].
         split; [reflexivity|apply Hwarn].
       - intros (_ & _ & Hc). contradiction. }
  apply truthy_nonempty in He. split; [tauto|]. intros _.
  destruct (research_and_render_emits repr E
              (fun ev => match ev with Show (warning _) => False | _ => True end)
              topic) with (w := w) as [_ (new & Hnew & Hquiet)].
  - intros d Hd. destruct d; try exact I. destruct Hd.
  - intros; exact I.
  - intros; exact I.
  - intros; exact I.
  - exists new. split; [exact Hnew|]. apply warnings_none, Hquiet.
Qed.

Lemma page_stores i w name :
  name ∈ credential_keys ->
  session_state (snd (page repr E i w)) !! name =
    Some (if Str.truthy (entered i name) then entered i name
          else default "" (session_state w !! name)).
Proof.
  intros Hin. destruct (page_run repr E i w) as (shown & new & Hs & _).
  rewrite Hs. apply stored_lookup, Hin.
Qed.

(** C10.  Once a key of the session store holds a non-empty value, it holds
    a non-empty value after any number of further runs of the page; a run
    replaces the stored value by the entered one when that is non-empty and
    leaves it unchanged when the field is empty. *)
Theorem credentials_stay_set (runs : list inputs) (w : world)
    (name v : string) :
  name ∈ credential_keys ->
  session_state w !! name = Some v ->
  v <> "" ->
  (exists v',
      session_state (interact repr E runs w) !! name = Some v' /\ v' <> "") /\
  (forall i,
      session_state (snd (page repr E i w)) !! name =
        Some (if Str.truthy (entered i name) then entered i name else v)).
Proof.
  intros Hin Hv Hne. split.
  - revert w v Hv Hne. induction runs as [|i runs IH]; intros w v Hv Hne.
    + exists v. auto.
    + unfold interact in *. simpl.
      eapply IH; [apply (page_stores i w name Hin)|].
      rewrite Hv. simpl.
      destruct (Str.truthy (entered i name)) eqn:Ht; [|exact Hne].
      apply truthy_nonempty, Ht.
  - intros i. rewrite (page_stores i w name Hin), Hv. reflexivity.
Qed.

End PageClaims.

Lemma start_research_warns_witness :
  exists msg,
    missing "" "fc-key" "https://llm.example/generate" msg /\
    start_research Demo.repr Demo.reporting "" Demo.start
      = (Ok tt, World Demo.store [Show (warning msg)]) /\
    calls (trace (snd (start_research Demo.repr Demo.reporting ""
                         Demo.start)))
      = calls (trace Demo.start).
Proof.
  exact (proj1 (start_research_warns Demo.repr Demo.reporting ""
                  Demo.start example_store_initialised)
           (or_introl eq_refl)).
Defined.

Lemma credentials_stay_set_witness :
  (exists v',
      session_state
        (interact Demo.repr Demo.reporting
           [Demo.fields_cleared; Demo.first_visit] Demo.start)
        !! "llama_endpoint" = Some v' /\ v' <> "") /\
  (forall i,
      session_state (snd (page Demo.repr Demo.reporting i Demo.start))
        !! "llama_endpoint" =
        Some (if Str.truthy (entered i "llama_endpoint")
              then entered i "llama_endpoint"
              else "https://llm.example/generate")).
Proof.
  apply (credentials_stay_set Demo.repr Demo.reporting
           [Demo.fields_cleared; Demo.first_visit] Demo.start
           "llama_endpoint" "https://llm.example/generate").
  - constructor.
  - reflexivity.
  - discriminate.
Defined.

(** Emptying the fields of the sidebar keeps what was stored, and the button
    stays enabled. *)
Example clearing_keeps_credentials :
  let w := interact Demo.repr Demo.reporting
             [Demo.first_visit; Inputs "" "" "" "quantum computing" false]
             (World ∅ []) in
  session_state w !! "llama_endpoint" = Some "https://llm.example/generate" /\
  session_state w !! "firecrawl_api_key" = Some "fc-key" /\
  session_state w !! "llama_api_key" = Some "" /\
  buttons (trace w) = [true; false].
Proof. vm_compute. auto. Qed.

(** A button reported pressed while the endpoint is missing: one warning and
    no remote call. *)
Example pressed_without_endpoint :
  let w := snd (page Demo.repr Demo.reporting
                  (Inputs "" "" "fc-key" "quantum computing" true)
                  (World ∅ [])) in
  warnings (trace w) = ["Please enter the LLaMA API endpoint."] /\
  calls (trace w) = [] /\
  buttons (trace w) = [true].
Proof. vm_compute. auto. Qed.

(** A complete run of the page: the crawl carries the topic and the limits. *)
Example pressed_with_everything :
  let w := snd (page Demo.repr Demo.reporting Demo.fields_cleared
                  Demo.start) in
  warnings (trace w) = [] /\
  omap (fun ev => match ev with
                  | Crawl _ query params => Some (query, params)
                  | _ => None
                  end) (trace w)
    = [("quantum computing", CrawlParams 3 180 10)] /\
  length (posts (trace w)) = 2%nat.
Proof. vm_compute. auto. Qed.

(** ** More on the completion call *)

Lemma llama_headers_lookup (api_key : string) :
  llama_headers api_key !! "Content-Type" = Some "application/json" /\
  llama_headers api_key !! "Authorization" =
    (if Str.truthy api_key then Some ("Bearer " +:+ api_key) else None).
Proof.
  unfold llama_headers. destruct (Str.truthy api_key).
  - split; [rewrite lookup_insert_ne by discriminate|rewrite lookup_insert_eq];
      reflexivity.
  - split; reflexivity.
Qed.

(** X1.  With the keys stored, a call of [call_llama] adds exactly one event
    to the trace, whatever the endpoint answers and whether the call returns
    or raises: one POST to the stored endpoint whose JSON body is the payload
    built from the prompt.  Nothing is retried and the session store is left
    as it is. *)
Theorem call_llama_posts_once (E : env) (prompt : string) (w : world) :
  initialised (session_state w) ->
  exists headers,
    snd (call_llama E prompt w) =
      World (session_state w)
        (trace w ++
           [Post (Request (session_state w !!! "llama_endpoint") headers
                    (payload prompt))]) /\
    Py.getitem (payload prompt) "inputs" = Ok (VStr prompt).
Proof.
  intros (Hk & Hu & _). rewrite (call_llama_run E prompt w Hk Hu).
  eexists. split; reflexivity.
Qed.

(** X2.  The request of [call_llama] always carries the header
    [Content-Type: application/json]; it carries an [Authorization] header,
    [Bearer] followed by the stored completion key, exactly when that key is
    not empty. *)
Theorem call_llama_authorization (E : env) (prompt : string) (w : world) :
  initialised (session_state w) ->
  exists r,
    posts (trace (snd (call_llama E prompt w))) = posts (trace w) ++ [r] /\
    req_headers r !! "Content-Type" = Some "application/json" /\
    req_headers r !! "Authorization" =
      (if Str.truthy (session_state w !!! "llama_api_key")
       then Some ("Bearer " +:+ (session_state w !!! "llama_api_key"))
       else None).
Proof.
  intros (Hk & Hu & _). rewrite (call_llama_run E prompt w Hk Hu).
  eexists. simpl. rewrite posts_app. split; [reflexivity|].
  apply llama_headers_lookup.
Qed.

(** X3.  [call_llama] handles no exception: one raised by [requests.post],
    and on a 200 answer one raised by [response.json()], leaves the
    function as it is. *)
Theorem call_llama_propagates (E : env) (prompt : string) (w : world)
    (e : exn) :
  initialised (session_state w) ->
  requests_post E (trace w) (llama_request (session_state w) prompt) = Raise e \/
  (exists r,
      requests_post E (trace w) (llama_request (session_state w) prompt) = Ok r /\
      status_code r = 200%Z /\ json r = Raise e) ->
  fst (call_llama E prompt w) = Raise e.
Proof.
  intros (Hk & Hu & _) H. rewrite (call_llama_run E prompt w Hk Hu). simpl.
  destruct H as [-> | (r & -> & Hs & Hj)]; [reflexivity|].
  simpl. rewrite Hs, Hj. reflexivity.
Qed.

Lemma generated_text_ok (body out : value) :
  generated_text body = Ok out <->
  extracts body out \/
  (exists d : gmap string value,
      body = VDict d /\ d !! "generated_text" = None /\ out = VStr "").
Proof.
  split.
  - unfold generated_text. destruct body as [| b | z | f | s | l | d]; simpl;
      try discriminate.
    + unfold Py.getitem0. destruct (l !! 0%nat) as [first|] eqn:H0;
        [|discriminate].
      destruct first as [| b | z | f | s | l' | d]; simpl; try discriminate.
      destruct (d !! "generated_text") as [field|] eqn:Hf; [|discriminate].
      intros H. injection H as <-. left. eapply extracts_list; eassumption.
    + destruct (d !! "generated_text") as [field|] eqn:Hf; simpl.
      * destruct field as [| b | z | f | s | l' | d']; simpl; try discriminate.
        intros H. injection H as <-. left. apply extracts_object, Hf.
      * intros H. injection H as <-. right. exists d. auto.
  - intros [Hx | (d & -> & Hf & ->)].
    + destruct Hx as [l d field H0 Hf | d s Hf]; unfold generated_text.
      * unfold Py.getitem0. rewrite H0. simpl. rewrite Hf. reflexivity.
      * simpl. rewrite Hf. reflexivity.
    + unfold generated_text. simpl. rewrite Hf. reflexivity.
Qed.

(** X4.  On a 200 answer with a JSON body, [call_llama] returns a value in
    three cases only: the body is a list whose element 0 is an object with a
    [generated_text] field; the body is an object whose [generated_text] is a
    string; the body is an object without the field.  On every other body
    (an empty list, an element 0 that is not an object or lacks the field, a
    field that is not a string, a body that is neither a list nor an object)
    it raises. *)
Theorem call_llama_returns_iff (E : env) (prompt : string) (w : world)
    (r : response) (body out : value) :
  initialised (session_state w) ->
  requests_post E (trace w) (llama_request (session_state w) prompt) = Ok r ->
  status_code r = 200%Z ->
  json r = Ok body ->
  fst (call_llama E prompt w) = Ok out <->
  extracts body out \/
  (exists d : gmap string value,
      body = VDict d /\ d !! "generated_text" = None /\ out = VStr "").
Proof.
  intros (Hk & Hu & _) Hr Hs Hj.
  rewrite (call_llama_run E prompt w Hk Hu), Hr. simpl. rewrite Hs, Hj.
  apply generated_text_ok.
Qed.

Lemma call_llama_posts_once_witness :
  exists headers,
    snd (call_llama (Demo.answering Demo.unavailable) "hello" Demo.start) =
      World Demo.store
        [Post (Request "https://llm.example/generate" headers (payload "hello"))] /\
    Py.getitem (payload "hello") "inputs" = Ok (VStr "hello").
Proof.
  exact (call_llama_posts_once (Demo.answering Demo.unavailable) "hello"
           Demo.start example_store_initialised).
Defined.

Lemma call_llama_authorization_witness :
  exists r,
    posts (trace (snd (call_llama Demo.reporting "hello" Demo.start))) = [r] /\
    req_headers r !! "Content-Type" = Some "application/json" /\
    req_headers r !! "Authorization" = Some "Bearer secret".
Proof.
  exact (call_llama_authorization Demo.reporting "hello" Demo.start
           example_store_initialised).
Defined.

Lemma call_llama_propagates_witness :
  fst (call_llama
         (Demo.answering
            (Response 200 "<html>" (Raise (Exn "JSONDecodeError" "Expecting value"))))
         "hello" Demo.start)
  = Raise (Exn "JSONDecodeError" "Expecting value").
Proof.
  apply (call_llama_propagates _ "hello" Demo.start).
  - exact example_store_initialised.
  - right. eexists. split; [reflexivity|]. split; reflexivity.
Defined.

Lemma call_llama_returns_iff_witness :
  fst (call_llama (Demo.answering (Demo.ok_json (VList [VInt 7]))) "hello"
         Demo.start) = Ok (VStr "") <->
  extracts (VList [VInt 7]) (VStr "") \/
  (exists d : gmap string value,
      VList [VInt 7] = VDict d /\ d !! "generated_text" = None /\
      VStr "" = VStr "").
Proof.
  apply (call_llama_returns_iff _ "hello" Demo.start
           (Demo.ok_json (VList [VInt 7])) (VList [VInt 7]) (VStr "")).
  - exact example_store_initialised.
  - reflexivity.
  - reflexivity.
  - reflexivity.
Defined.

(** An element 0 that is not an object: the subscription raises. *)
Example element_not_an_object :
  fst (call_llama (Demo.answering (Demo.ok_json (VList [VInt 7]))) "hello"
         Demo.start)
  = Raise (TypeError "'int' object is not subscriptable").
Proof. reflexivity. Qed.

(** ** More on the research step *)

Lemma errors_app tr1 tr2 : errors (tr1 ++ tr2) = errors tr1 ++ errors tr2.
Proof. unfold errors. apply omap_app. Qed.

Lemma writes_app tr1 tr2 : writes (tr1 ++ tr2) = writes tr1 ++ writes tr2.
Proof. unfold writes. apply omap_app. Qed.

Lemma downloads_app tr1 tr2 :
  downloads (tr1 ++ tr2) = downloads tr1 ++ downloads tr2.
Proof. unfold downloads. apply omap_app. Qed.

Lemma remote_app tr1 tr2 : remote (tr1 ++ tr2) = remote tr1 ++ remote tr2.
Proof. unfold remote. apply omap_app. Qed.

Lemma errors_cons ev tr :
  errors (ev :: tr) =
    match ev with
    | Show (error s) => s :: errors tr
    | _ => errors tr
    end.
Proof. destruct ev as [| | |d]; try reflexivity. destruct d; reflexivity. Qed.

Lemma writes_cons ev tr :
  writes (ev :: tr) =
    match ev with
    | Show (write s) => s :: writes tr
    | _ => writes tr
    end.
Proof. destruct ev as [| | |d]; try reflexivity. destruct d; reflexivity. Qed.

Lemma downloads_cons ev tr :
  downloads (ev :: tr) =
    match ev with
    | Show (download_button _ data file_name _) =>
        (data, file_name) :: downloads tr
    | _ => downloads tr
    end.
Proof. destruct ev as [| | |d]; try reflexivity. destruct d; reflexivity. Qed.

Lemma remote_cons ev tr :
  remote (ev :: tr) =
    match ev with
    | Post _ | Crawl _ _ _ => ev :: remote tr
    | _ => remote tr
    end.
Proof. destruct ev; reflexivity. Qed.

Lemma errors_none tr :
  Forall (fun ev => match ev with Show (error _) => False | _ => True end) tr ->
  errors tr = [].
Proof.
  induction 1 as [|ev tr Hev _ IH]; [reflexivity|].
  unfold errors in *. simpl.
  destruct ev as [| | |d]; try exact IH. destruct d; try contradiction; exact IH.
Qed.

Lemma downloads_none tr :
  Forall (fun ev =>
            match ev with
            | Show (download_button _ _ _ _) => False
            | _ => True
            end) tr ->
  downloads tr = [].
Proof.
  induction 1 as [|ev tr Hev _ IH]; [reflexivity|].
  unfold downloads in *. simpl.
  destruct ev as [| | |d]; try exact IH. destruct d; try contradiction; exact IH.
Qed.

Lemma writes_lines lines :
  writes (map (fun line => Show (write line)) lines) = lines.
Proof.
  induction lines as [|l lines IH]; [reflexivity|].
  change (l :: writes (map (fun line => Show (write line)) lines) = l :: lines).
  rewrite IH. reflexivity.
Qed.

Section ResearchRuns.

Variable repr : value -> string.
Variable E : env.

Lemma on_activity_run activity line w :
  activity_line repr activity = Some line ->
  on_activity repr activity w
    = (Ok tt, World (session_state w) (trace w ++ [Show (write line)])).
Proof.
  unfold activity_line, on_activity, mbind, M_bind, lift.
  destruct activity as [| b | z | f | s | l | d]; try discriminate. simpl.
  destruct (d !! "type") as [t|]; [|discriminate].
  destruct (d !! "message") as [m|]; [|discriminate].
  intros H. injection H as <-. reflexivity.
Qed.

Lemma report_run activities : forall lines w,
  mapM (activity_line repr) activities = Some lines ->
  report (on_activity repr) activities w
    = (Ok tt,
       World (session_state w)
         (trace w ++ map (fun line => Show (write line)) lines)).
Proof.
  induction activities as [|a rest IH]; intros lines w Hlines.
  - injection Hlines as <-. destruct w. simpl. rewrite app_nil_r. reflexivity.
  - simpl in Hlines.
    destruct (activity_line repr a) as [line|] eqn:Ha; [|discriminate].
    simpl in Hlines.
    destruct (mapM (activity_line repr) rest) as [lines'|] eqn:Hrest;
      [|discriminate].
    injection Hlines as <-. simpl. unfold mbind, M_bind.
    rewrite (on_activity_run a line w Ha), (IH lines' _ eq_refl). simpl.
    rewrite <- app_assoc. reflexivity.
Qed.

(** The crawl block when the application object is built and every reported
    activity has a type and a message. *)
Lemma crawl_run query max_depth time_limit max_urls w key activities outcome
    lines :
  session_state w !! "firecrawl_api_key" = Some key ->
  firecrawl_app E (trace w) key = Ok tt ->
  firecrawl_deep_research E
    (trace w ++ [NewFirecrawlApp key;
                 Show (spinner_enter "Performing deep research...")])
    key query (CrawlParams max_depth time_limit max_urls)
    = (activities, outcome) ->
  mapM (activity_line repr) activities = Some lines ->
  crawl repr E query max_depth time_limit max_urls w =
    (outcome,
     World (session_state w)
       (trace w ++
          [NewFirecrawlApp key;
           Show (spinner_enter "Performing deep research...");
           Crawl key query (CrawlParams max_depth time_limit max_urls)]
          ++ map (fun line => Show (write line)) lines
          ++ [Show spinner_exit])).
Proof.
  intros Hk Happ Hsdk Hlines. unfold crawl, mbind, M_bind.
  rewrite (session_get_some _ _ _ Hk). unfold FirecrawlApp. rewrite Happ.
  rewrite with_run. cbn [session_state trace].
  unfold app_deep_research. cbn [session_state trace].
  rewrite <- app_assoc. cbn [app]. rewrite Hsdk.
  rewrite (report_run activities lines _ Hlines). simpl.
  rewrite <- !app_assoc. reflexivity.
Qed.

Lemma crawl_shows (P : event -> Prop) query max_depth time_limit max_urls :
  (forall s, P (Show (spinner_enter s))) ->
  P (Show spinner_exit) ->
  (forall s, P (Show (write s))) ->
  (forall k, P (NewFirecrawlApp k)) ->
  (forall k, P (Crawl k query (CrawlParams max_depth time_limit max_urls))) ->
  emits P (crawl repr E query max_depth time_limit max_urls).
Proof.
  intros Hin Hout Hw HN HC. unfold crawl.
  apply emits_bind; [apply emits_session_get|]. intros k.
  apply emits_bind; [apply FirecrawlApp_emits, HN|]. intros app.
  apply emits_with; [apply Hin|apply Hout|].
  intros w. unfold app_deep_research.
  destruct (firecrawl_deep_research E (trace w) app query _)
    as [activities outcome].
  assert (Hrep : emits P (report (on_activity repr) activities)).
  { clear w. induction activities as [|a rest IH]; simpl.
    - apply emits_ret.
    - apply emits_bind; [|intros _; exact IH]. unfold on_activity.
      apply emits_bind; [apply emits_lift|]. intros t.
      apply emits_bind; [apply emits_lift|]. intros m.
      apply emits_show, Hw. }
  specialize (Hrep (World (session_state w)
                      (trace w ++ [Crawl app query
                                     (CrawlParams max_depth time_limit max_urls)]))).
  destruct (report _ _ _) as [[[]|e] w']; simpl in *;
    (eapply extends_trans; [apply (extends_emit P _ w (HC app))|exact Hrep]).
Qed.

End ResearchRuns.

Lemma crawl_record_reads results data final_analysis sources sources_count :
  Py.getitem results "data" = Ok data ->
  Py.getitem data "finalAnalysis" = Ok final_analysis ->
  Py.getitem data "sources" = Ok sources ->
  Py.len sources = Ok sources_count ->
  crawl_record results = Ok (Research final_analysis sources_count sources).
Proof.
  intros Hd Hfa Hs Hn. unfold crawl_record. rewrite Hd, Hfa, Hs, Hn.
  reflexivity.
Qed.

Lemma crawl_record_ok_inv results record :
  crawl_record results = Ok record ->
  exists data final_analysis sources sources_count,
    Py.getitem results "data" = Ok data /\
    Py.getitem data "finalAnalysis" = Ok final_analysis /\
    Py.getitem data "sources" = Ok sources /\
    Py.len sources = Ok sources_count /\
    record = Research final_analysis sources_count sources.
Proof.
  unfold crawl_record.
  destruct (Py.getitem results "data") as [data|] eqn:Hd; [|discriminate].
  destruct (Py.getitem data "finalAnalysis") as [fa|] eqn:Hfa; [|discriminate].
  destruct (Py.getitem data "sources") as [srcs|] eqn:Hs; [|discriminate].
  destruct (Py.len srcs) as [n|] eqn:Hn; [|discriminate].
  intros H. injection H as <-. exists data, fa, srcs, n. auto.
Qed.

Lemma crawl_record_unreadable results e :
  crawl_record results = Raise e <-> unreadable results e.
Proof.
  unfold crawl_record, unreadable. split.
  - destruct (Py.getitem results "data") as [data|] eqn:Hd;
      [|intros H; injection H as <-; left; reflexivity].
    destruct (Py.getitem data "finalAnalysis") as [fa|] eqn:Hfa;
      [|intros H; injection H as <-; right; exists data; auto].
    destruct (Py.getitem data "sources") as [srcs|] eqn:Hs;
      [|intros H; injection H as <-; right; exists data;
        split; [reflexivity|]; right; exists fa; auto].
    destruct (Py.len srcs) as [n|] eqn:Hn; [discriminate|].
    intros H. injection H as <-. right. exists data. split; [reflexivity|].
    right. exists fa. split; [exact Hfa|]. right. exists srcs. auto.
  - intros [Hd | (data & Hd & [Hfa | (fa & Hfa & [Hs | (srcs & Hs & Hn)])])].
    + rewrite Hd. reflexivity.
    + rewrite Hd, Hfa. reflexivity.
    + rewrite Hd, Hfa, Hs. reflexivity.
    + rewrite Hd, Hfa, Hs, Hn. reflexivity.
Qed.

Section NeverRaises.

Variable repr : value -> string.
Variable E : env.

(** C5.  [deep_research] never raises: it always returns a record.  When
    the crawl raises [e], or when reading its result raises [e], the record
    is the failure record carrying [str(e)].  When the crawl returns a
    result whose [data] has a [finalAnalysis] and [sources] with a length,
    the record is the success record carrying that analysis and that source
    list.  Conversely a failure record always carries the text of such an
    exception, and a success record always carries the [finalAnalysis] and
    the [sources] of the crawl result.  The crawl itself has the outcome of
    the SDK's call once the application object is built and the reported
    activities are well formed. *)
Theorem deep_research_never_raises (query : string)
    (max_depth time_limit max_urls : Z) (w : world) :
  exists r w',
    deep_research repr E query max_depth time_limit max_urls w = (Ok r, w') /\
    (forall e,
        fst (crawl repr E query max_depth time_limit max_urls w) = Raise e ->
        r = Failed (exn_str e)) /\
    (forall results e,
        fst (crawl repr E query max_depth time_limit max_urls w) = Ok results ->
        unreadable results e ->
        r = Failed (exn_str e)) /\
    (forall results data final_analysis sources sources_count,
        fst (crawl repr E query max_depth time_limit max_urls w) = Ok results ->
        Py.getitem results "data" = Ok data ->
        Py.getitem data "finalAnalysis" = Ok final_analysis ->
        Py.getitem data "sources" = Ok sources ->
        Py.len sources = Ok sources_count ->
        r = Research final_analysis sources_count sources) /\
    (forall key activities outcome lines,
        session_state w !! "firecrawl_api_key" = Some key ->
        firecrawl_app E (trace w) key = Ok tt ->
        firecrawl_deep_research E
          (trace w ++ [NewFirecrawlApp key;
                       Show (spinner_enter "Performing deep research...")])
          key query (CrawlParams max_depth time_limit max_urls)
          = (activities, outcome) ->
        mapM (activity_line repr) activities = Some lines ->
        fst (crawl repr E query max_depth time_limit max_urls w) = outcome) /\
    match r with
    | Failed msg =>
        success r = false /\
        exists e,
          msg = exn_str e /\
          (fst (crawl repr E query max_depth time_limit max_urls w) = Raise e \/
           exists results,
             fst (crawl repr E query max_depth time_limit max_urls w)
               = Ok results /\
             unreadable results e)
    | Research final_analysis sources_count sources =>
        success r = true /\
        exists results data,
          fst (crawl repr E query max_depth time_limit max_urls w)
            = Ok results /\
          Py.getitem results "data" = Ok data /\
          Py.getitem data "finalAnalysis" = Ok final_analysis /\
          Py.getitem data "sources" = Ok sources /\
          Py.len sources = Ok sources_count
    end.
Proof.
  assert (Henv : forall key activities outcome lines,
    session_state w !! "firecrawl_api_key" = Some key ->
    firecrawl_app E (trace w) key = Ok tt ->
    firecrawl_deep_research E
      (trace w ++ [NewFirecrawlApp key;
                   Show (spinner_enter "Performing deep research...")])
      key query (CrawlParams max_depth time_limit max_urls)
      = (activities, outcome) ->
    mapM (activity_line repr) activities = Some lines ->
    fst (crawl repr E query max_depth time_limit max_urls w) = outcome).
  { intros key activities outcome lines Hk Happ Hsdk Hlines.
    rewrite (crawl_run repr E query max_depth time_limit max_urls w key
               activities outcome lines Hk Happ Hsdk Hlines).
    reflexivity. }
  revert Henv. unfold deep_research, try_except, mbind, M_bind.
  destruct (crawl repr E query max_depth time_limit max_urls w)
    as [[results|e] w1]; cbn [fst]; intros Henv.
  - unfold lift. destruct (crawl_record results) as [record|e] eqn:Hrec.
    + destruct (crawl_record_ok_inv results record Hrec)
        as (data & fa & srcs & n & Hd & Hfa & Hs & Hn & ->).
      exists (Research fa n srcs), w1. split; [reflexivity|].
      split; [discriminate|]. split.
      { intros results' e Heq Hun. injection Heq as <-.
        apply crawl_record_unreadable in Hun. congruence. }
      split.
      { intros results' data' fa' srcs' n' Heq Hd' Hfa' Hs' Hn'.
        injection Heq as <-. congruence. }
      split; [exact Henv|]. split; [reflexivity|].
      exists results, data. auto.
    + eexists (Failed (exn_str e)), _. unfold show, emit. simpl.
      split; [reflexivity|]. split; [discriminate|]. split.
      { intros results' e' Heq Hun. injection Heq as <-.
        apply crawl_record_unreadable in Hun. congruence. }
      split.
      { intros results' data' fa' srcs' n' Heq Hd' Hfa' Hs' Hn'.
        injection Heq as <-.
        rewrite (crawl_record_reads _ _ _ _ _ Hd' Hfa' Hs' Hn') in Hrec.
        discriminate Hrec. }
      split; [exact Henv|]. split; [reflexivity|].
      exists e. split; [reflexivity|]. right. exists results.
      split; [reflexivity|]. apply crawl_record_unreadable, Hrec.
  - eexists (Failed (exn_str e)), _. unfold show, emit. simpl.
    split; [reflexivity|]. split.
    { intros e' Heq. injection Heq as <-. reflexivity. }
    split; [discriminate|]. split; [discriminate|].
    split; [exact Henv|]. split; [reflexivity|].
    exists e. split; [reflexivity|]. left. reflexivity.
Qed.

End NeverRaises.

Section ResearchExtras.

Variable repr : value -> string.
Variable E : env.

(** X5.  When the application object is built and every activity the SDK
    reports has a [type] and a [message], [deep_research] writes one line per
    activity, [[type] message], in the order reported, and nothing else with
    [st.write], whether the crawl then returns or raises. *)
Theorem activities_written (query : string) (max_depth time_limit max_urls : Z)
    (w : world) (key : string) (activities : list value)
    (outcome : result value) (lines : list string) :
  session_state w !! "firecrawl_api_key" = Some key ->
  firecrawl_app E (trace w) key = Ok tt ->
  firecrawl_deep_research E
    (trace w ++ [NewFirecrawlApp key;
                 Show (spinner_enter "Performing deep research...")])
    key query (CrawlParams max_depth time_limit max_urls)
    = (activities, outcome) ->
  mapM (activity_line repr) activities = Some lines ->
  exists new,
    trace (snd (deep_research repr E query max_depth time_limit max_urls w))
      = trace w ++ new /\
    writes new = lines.
Proof.
  intros Hk Happ Hsdk Hlines.
  unfold deep_research, try_except, mbind, M_bind.
  rewrite (crawl_run repr E query max_depth time_limit max_urls w key
             activities outcome lines Hk Happ Hsdk Hlines).
  assert (Hw : forall tail,
    writes tail = [] ->
    writes ([NewFirecrawlApp key;
             Show (spinner_enter "Performing deep research...");
             Crawl key query (CrawlParams max_depth time_limit max_urls)]
              ++ map (fun line => Show (write line)) lines
              ++ Show spinner_exit :: tail) = lines).
  { intros tail Htail. rewrite !writes_app, writes_lines, !writes_cons, Htail.
    simpl. apply app_nil_r. }
  destruct outcome as [results|e]; [unfold lift; destruct (crawl_record results)|];
    unfold show, emit, mbind, M_bind, mret, M_ret;
    cbn [fst snd trace session_state].
  - eexists. split; [reflexivity|]. apply (Hw []). reflexivity.
  - exists ([NewFirecrawlApp key;
             Show (spinner_enter "Performing deep research...");
             Crawl key query (CrawlParams max_depth time_limit max_urls)]
              ++ map (fun line => Show (write line)) lines
              ++ Show spinner_exit
                 :: [Show (error ("Deep research error: " +:+ exn_str e))]).
    split; [rewrite <- !app_assoc; reflexivity|]. apply Hw. reflexivity.
  - exists ([NewFirecrawlApp key;
             Show (spinner_enter "Performing deep research...");
             Crawl key query (CrawlParams max_depth time_limit max_urls)]
              ++ map (fun line => Show (write line)) lines
              ++ Show spinner_exit
                 :: [Show (error ("Deep research error: " +:+ exn_str e))]).
    split; [rewrite <- !app_assoc; reflexivity|]. apply Hw. reflexivity.
Qed.

(** X6.  [deep_research] shows an error message exactly when it returns the
    failure record, and then exactly one: [Deep research error: ] followed by
    the message the record carries. *)
Theorem deep_research_error_shown (query : string)
    (max_depth time_limit max_urls : Z) (w : world) :
  exists new,
    trace (snd (deep_research repr E query max_depth time_limit max_urls w))
      = trace w ++ new /\
    errors new =
      match fst (deep_research repr E query max_depth time_limit max_urls w) with
      | Ok (Failed msg) => ["Deep research error: " +:+ msg]
      | _ => []
      end.
Proof.
  destruct (crawl_shows repr E
              (fun ev => match ev with Show (error _) => False | _ => True end)
              query max_depth time_limit max_urls
              (fun _ => I) I (fun _ => I) (fun _ => I) (fun _ => I) w)
    as [_ (new & Hnew & Hquiet)].
  unfold deep_research, try_except, mbind, M_bind.
  destruct (crawl repr E query max_depth time_limit max_urls w)
    as [[results|e] w1]; simpl in *.
  - unfold lift.
    destruct (crawl_record results) as [[fa n srcs|msg]|e] eqn:Hrec; simpl.
    + exists new. split; [exact Hnew|]. apply errors_none, Hquiet.
    + exfalso. revert Hrec. unfold crawl_record.
      destruct (Py.getitem results "data") as [data|]; [|discriminate].
      destruct (Py.getitem data "finalAnalysis"); [|discriminate].
      destruct (Py.getitem data "sources") as [srcs|]; [|discriminate].
      destruct (Py.len srcs); discriminate.
    + exists (new ++ [Show (error ("Deep research error: " +:+ exn_str e))]).
      rewrite Hnew, <- app_assoc. split; [reflexivity|].
      rewrite errors_app, (errors_none new Hquiet). reflexivity.
  - exists (new ++ [Show (error ("Deep research error: " +:+ exn_str e))]).
    rewrite Hnew, <- app_assoc. split; [reflexivity|].
    rewrite errors_app, (errors_none new Hquiet). reflexivity.
Qed.

End ResearchExtras.

Lemma activities_written_witness :
  exists new,
    trace (snd (deep_research Demo.repr Demo.reporting "quantum computing"
                  3 180 10 Demo.start))
      = trace Demo.start ++ new /\
    writes new = ["[search] looking"].
Proof.
  apply (activities_written Demo.repr Demo.reporting "quantum computing"
           3 180 10 Demo.start "fc-key" [Demo.activity] (Ok Demo.crawled)).
  - reflexivity.
  - reflexivity.
  - reflexivity.
  - reflexivity.
Defined.

Section ResearchFailures.

Variable repr : value -> string.
Variable E : env.

(** X7.  When the [FirecrawlApp] constructor raises, for instance on a
    rejected key, [deep_research] does not call the crawling service: it shows
    the error and returns the failure record with the constructor's
    message. *)
Theorem firecrawl_app_failure (query : string)
    (max_depth time_limit max_urls : Z) (w : world) (key : string) (e : exn) :
  session_state w !! "firecrawl_api_key" = Some key ->
  firecrawl_app E (trace w) key = Raise e ->
  deep_research repr E query max_depth time_limit max_urls w =
    (Ok (Failed (exn_str e)),
     World (session_state w)
       (trace w ++
          [NewFirecrawlApp key;
           Show (error ("Deep research error: " +:+ exn_str e))])).
Proof.
  intros Hk Happ. unfold deep_research, try_except, mbind, M_bind, crawl.
  unfold mbind, M_bind. rewrite (session_get_some _ _ _ Hk).
  unfold FirecrawlApp. rewrite Happ. unfold show, emit, mret, M_ret. simpl.
  rewrite <- app_assoc. reflexivity.
Qed.

(** X8.  When step one succeeds and the first completion call raises,
    [run_research_process] raises the same exception; the enhancement prompt
    is never sent: the run posted one request only. *)
Theorem first_call_error (topic : string) (w w1 : world)
    (final_analysis sources : value) (sources_count : Z) (e : exn) :
  initialised (session_state w) ->
  research_step repr E topic w
    = (Ok (Research final_analysis sources_count sources), w1) ->
  fst (call_llama E (initial_prompt repr topic final_analysis sources) w1)
    = Raise e ->
  fst (run_research_process repr E topic w) = Raise e /\
  posts (trace (snd (run_research_process repr E topic w))) =
    posts (trace w) ++
      [llama_request (session_state w)
         (initial_prompt repr topic final_analysis sources)].
Proof.
  intros (Hk & Hu & Hf) Hstep Hcall.
  pose proof (research_step_emits repr E
                (fun ev => match ev with Post _ => False | _ => True end)
                topic (fun _ _ => I) (fun _ => I) (fun _ => I) w) as Hx.
  rewrite Hstep in Hx. destruct Hx as [Hs (new & Ht & Hnew)]. simpl in Hs, Ht.
  unfold run_research_process, mbind, M_bind. rewrite Hstep. simpl.
  rewrite call_llama_run in * by (rewrite Hs; assumption).
  simpl in Hcall. rewrite Hcall. simpl. split; [reflexivity|].
  rewrite Hs, Ht, !posts_app, (posts_none new Hnew), app_nil_r. reflexivity.
Qed.

End ResearchFailures.

Lemma firecrawl_app_failure_witness :
  deep_research Demo.repr
    (Env (fun _ _ => Ok Demo.unavailable)
         (fun _ _ => Raise (Exn "ValueError" "No API key provided"))
         (fun _ _ _ _ => ([], Ok Demo.crawled)))
    "quantum computing" 3 180 10 Demo.start =
  (Ok (Failed "No API key provided"),
   World Demo.store
     [NewFirecrawlApp "fc-key";
      Show (error "Deep research error: No API key provided")]).
Proof.
  apply (firecrawl_app_failure Demo.repr _ "quantum computing" 3 180 10
           Demo.start "fc-key" (Exn "ValueError" "No API key provided")).
  - reflexivity.
  - reflexivity.
Defined.

Lemma first_call_error_witness :
  fst (run_research_process Demo.repr (Demo.answering Demo.unavailable)
         "quantum computing" Demo.start)
  = Raise (Exception "LLaMA API error: 503 - Service Unavailable") /\
  posts (trace (snd (run_research_process Demo.repr
                       (Demo.answering Demo.unavailable)
                       "quantum computing" Demo.start)))
  = [llama_request Demo.store
       (initial_prompt Demo.repr "quantum computing" (VStr "X") (VList []))].
Proof.
  apply (first_call_error Demo.repr (Demo.answering Demo.unavailable)
           "quantum computing" Demo.start
           (snd (research_step Demo.repr (Demo.answering Demo.unavailable)
                   "quantum computing" Demo.start))
           (VStr "X") (VList []) 0).
  - exact example_store_initialised.
  - vm_compute. reflexivity.
  - vm_compute. reflexivity.
Defined.

(** ** More on the button's action *)

Section Rendering.

Variable repr : value -> string.
Variable E : env.

Lemma run_research_process_shows (P : event -> Prop) topic :
  (forall d, research_display d -> P (Show d)) ->
  (forall k, P (NewFirecrawlApp k)) ->
  (forall k, P (Crawl k topic (CrawlParams 3 180 10))) ->
  (forall r, P (Post r)) ->
  emits P (run_research_process repr E topic).
Proof.
  intros HS HN HC HP. unfold run_research_process.
  apply emits_bind.
  { unfold research_step. apply emits_with; [apply HS; exact I|apply HS; exact I|].
    unfold deep_research. apply emits_try.
    - apply emits_bind; [|intros; apply emits_lift].
      apply crawl_shows; try assumption; intros; apply HS; exact I.
    - intros e. apply emits_bind; [apply emits_show, HS; exact I|].
      intros _. apply emits_ret. }
  intros r. apply emits_if; [apply emits_ret|].
  destruct r as [fa n srcs|msg]; [|apply emits_raise].
  apply emits_bind; [apply call_llama_emits, HP|]. intros draft.
  apply emits_bind.
  { apply emits_with; [apply HS; exact I|apply HS; exact I|].
    apply emits_show, HS; exact I. }
  intros _. apply emits_bind; [|intros; apply emits_ret].
  apply emits_with; [apply HS; exact I|apply HS; exact I|].
  apply call_llama_emits, HP.
Qed.

(** The research with its rendering, in terms of the run it wraps. *)
Lemma research_and_render_run topic w :
  let run :=
    run_research_process repr E topic
      (World (session_state w) (trace w ++ [Show empty])) in
  research_and_render repr E topic w =
    (Ok tt,
     World (session_state (snd run))
       (trace (snd run) ++
          match fst run with
          | Ok enhanced_report =>
              [Show (placeholder_markdown (VStr "## Enhanced Research Report"));
               Show (placeholder_markdown enhanced_report);
               match enhanced_report with
               | VStr _ =>
                   Show (download_button "Download Report" enhanced_report
                           (report_file topic) "text/markdown")
               | _ =>
                   Show (error ("An error occurred: "
                                +:+ exn_str (invalid_data enhanced_report)))
               end]
          | Raise e => [Show (error ("An error occurred: " +:+ exn_str e))]
          end)).
Proof.
  intros run. subst run.
  unfold research_and_render, try_except, mbind, M_bind.
  unfold show at 1, emit. cbn [fst snd session_state trace].
  destruct (run_research_process repr E topic _) as [[report|e] w2];
    [destruct report|];
    unfold st_download_button, raise, show, emit, report_file; simpl;
    rewrite <- ?app_assoc; reflexivity.
Qed.

Lemma start_research_ok topic w :
  is_Some (session_state w !! "firecrawl_api_key") ->
  is_Some (session_state w !! "llama_endpoint") ->
  fst (start_research repr E topic w) = Ok tt.
Proof.
  intros [fk Hfk] [ep Hep]. unfold start_research.
  destruct (Str.truthy topic); simpl; [|reflexivity].
  unfold mbind, M_bind. rewrite (session_get_some _ _ _ Hfk).
  destruct (Str.truthy fk); simpl; [|reflexivity].
  rewrite (session_get_some _ _ _ Hep).
  destruct (Str.truthy ep); simpl; [|reflexivity].
  rewrite research_and_render_run. reflexivity.
Qed.

(** With an input missing the action shows a warning and stops. *)
Lemma start_research_quiet topic w :
  initialised (session_state w) ->
  topic = "" \/ session_state w !!! "firecrawl_api_key" = "" \/
  session_state w !!! "llama_endpoint" = "" ->
  exists msg,
    snd (start_research repr E topic w)
      = World (session_state w) (trace w ++ [Show (warning msg)]).
Proof.
  intros (_ & [ep Hep] & [fk Hfk]).
  rewrite (lookup_total_correct _ _ _ Hep), (lookup_total_correct _ _ _ Hfk).
  intros Hmissing. unfold start_research.
  destruct (Str.truthy topic) eqn:Ht; simpl; [|eexists; reflexivity].
  unfold mbind, M_bind. rewrite (session_get_some _ _ _ Hfk).
  destruct (Str.truthy fk) eqn:Hf; simpl; [|eexists; reflexivity].
  rewrite (session_get_some _ _ _ Hep).
  destruct (Str.truthy ep) eqn:He; simpl; [|eexists; reflexivity].
  apply truthy_nonempty in Ht, Hf, He. tauto.
Qed.

(** Everything a run of the page does, around the action of the button. *)
Lemma page_split i w :
  let ss' := updated i (ensured (session_state w)) in
  exists shown,
    Forall (fun ev => match ev with Show d => plain d | _ => False end) shown /\
    let w5 :=
      World ss'
        (trace w ++ shown ++
           [Show (button "Start Research"
                    (negb (Str.truthy (in_research_topic i)
                           && Str.truthy (ss' !!! "llama_endpoint")
                           && Str.truthy (ss' !!! "firecrawl_api_key"))))]) in
    let w6 :=
      if in_start_research i
      then snd (start_research repr E (in_research_topic i) w5)
      else w5 in
    page repr E i w =
      (Ok tt,
       World (session_state w6)
         (trace w6 ++
            [Show (markdown (VStr "---"));
             Show (markdown (VStr "Powered by LLaMA and Firecrawl"))])).
Proof.
  intros ss'. destruct w as [ss tr]. simpl in ss'.
  assert (Hin1 : "llama_endpoint" ∈ credential_keys)
    by (unfold credential_keys; rewrite !elem_of_cons; auto).
  assert (Hin2 : "firecrawl_api_key" ∈ credential_keys)
    by (unfold credential_keys; rewrite !elem_of_cons; auto).
  pose proof (stored_lookup i _ ss Hin1) as He.
  pose proof (stored_lookup i _ ss Hin2) as Hc.
  fold ss' in He, Hc.
  rewrite (lookup_total_correct _ _ _ He), (lookup_total_correct _ _ _ Hc).
  assert (Hregroup : forall (l : list event) a b c d e,
    (((((tr ++ [a]) ++ l) ++ [b]) ++ [c]) ++ [d]) ++ [e]
    = tr ++ (a :: l ++ [b; c; d]) ++ [e]).
  { intros. rewrite <- !app_assoc. simpl. rewrite <- !app_assoc. reflexivity. }
  unfold page, mbind, M_bind. unfold show at 1, emit. simpl.
  rewrite initialise_session_run. simpl.
  destruct (sidebar_run i (World (ensured ss) (tr ++ [Show (set_page_config "LLaMA Deep Research Agent" "📘" "wide")])) (ensured_initialised ss))
    as (shown & -> & Hshown).
  simpl. fold ss'. unfold st_text_input, mbind, M_bind, show, emit, mret, M_ret.
  simpl. set (w4 := World _ _).
  unfold trigger, mbind, M_bind.
  destruct (required_inputs_run (in_research_topic i) w4 _ _ He Hc)
    as (required & -> & ->).
  unfold st_button, mbind, M_bind, show, emit, mret, M_ret. simpl.
  subst w4. simpl. rewrite Hregroup.
  match goal with
  | |- context [World ss' (tr ++ ?l ++ [Show (button _ _)])] => exists l
  end.
  split.
  { constructor; [exact I|]. apply Forall_app. split; [exact Hshown|].
    repeat constructor. }
  set (w5 := World _ _).
  destruct (in_start_research i).
  - pose proof (start_research_ok (in_research_topic i) w5) as Hok.
    destruct (start_research repr E (in_research_topic i) w5) as [r w6].
    simpl in *. rewrite Hok by eauto. simpl. rewrite <- app_assoc. reflexivity.
  - simpl. rewrite <- app_assoc. reflexivity.
Qed.

End Rendering.

Lemma suffix_has_no_space pre post : "_report.md" <> pre +:+ " " +:+ post.
Proof.
  do 11 (destruct pre as [|? pre]; [discriminate|]); discriminate.
Qed.

Lemma report_file_has_no_space topic : ~ Str.contains " " (report_file topic).
Proof.
  unfold report_file, Str.contains.
  induction topic as [|a topic IH]; intros (pre & post & Heq).
  - exact (suffix_has_no_space pre post Heq).
  - destruct pre as [|p pre].
    + simpl in Heq. injection Heq as Ha _. revert Ha.
      destruct (Ascii.eqb a " ") eqn:Hsp; [discriminate|].
      intros ->. discriminate Hsp.
    + simpl in Heq. injection Heq as _ Heq. apply IH. eauto.
Qed.

Section RenderingExtras.

Variable repr : value -> string.
Variable E : env.

(** X9.  An exception that leaves [run_research_process] is caught by the
    action of the button: the action returns normally, the last thing it
    shows is [An error occurred: ] followed by the exception's message, and
    no download is offered. *)
Theorem research_and_render_catches (topic : string) (w : world) (e : exn) :
  let run :=
    run_research_process repr E topic
      (World (session_state w) (trace w ++ [Show empty])) in
  fst run = Raise e ->
  research_and_render repr E topic w =
    (Ok tt,
     World (session_state (snd run))
       (trace (snd run) ++
          [Show (error ("An error occurred: " +:+ exn_str e))])) /\
  exists new,
    trace (snd (research_and_render repr E topic w)) = trace w ++ new /\
    downloads new = [].
Proof.
  intros run Hraise. rewrite research_and_render_run. fold run. rewrite Hraise.
  split; [reflexivity|]. simpl.
  destruct (run_research_process_shows repr E
              (fun ev =>
                 match ev with
                 | Show (download_button _ _ _ _) => False
                 | _ => True
                 end) topic)
    with (w := World (session_state w) (trace w ++ [Show empty]))
    as [_ (new & Hnew & Hquiet)].
  - intros d Hd. destruct d; try exact I. destruct Hd.
  - intros; exact I.
  - intros; exact I.
  - intros; exact I.
  - fold run in Hnew. simpl in Hnew.
    exists (Show empty :: new ++ [Show (error ("An error occurred: " +:+ exn_str e))]).
    split.
    + rewrite Hnew, <- !app_assoc. reflexivity.
    + rewrite downloads_cons, downloads_app, (downloads_none new Hquiet).
      reflexivity.
Qed.

(** X10.  A failed research is rendered like a report: the action of the
    button shows the heading, then the failure string as the report, and
    offers that string for download under the report's file name. *)
Theorem failure_is_rendered (topic : string) (w w2 : world)
    (r : research_result) :
  research_step repr E topic (World (session_state w) (trace w ++ [Show empty]))
    = (Ok r, w2) ->
  success r = false ->
  research_and_render repr E topic w =
    (Ok tt,
     World (session_state w2)
       (trace w2 ++
          [Show (placeholder_markdown (VStr "## Enhanced Research Report"));
           Show (placeholder_markdown
                   (VStr "Research failed. Please try again."));
           Show (download_button "Download Report"
                   (VStr "Research failed. Please try again.")
                   (report_file topic) "text/markdown")])).
Proof.
  intros Hstep Hfail. rewrite research_and_render_run.
  unfold run_research_process, mbind, M_bind. rewrite Hstep, Hfail.
  reflexivity.
Qed.

(** X11.  When [run_research_process] returns a report that is a string,
    the action of the button offers exactly one download: that report, in a
    file named after the topic with every space replaced by an underscore
    and the suffix [_report.md]; the file name contains no space.  When the
    report is not a string (the list shape of the completion answer can
    yield any JSON value), the download widget refuses it: no download is
    offered and the last thing shown is [An error occurred: ] followed by
    the widget's message. *)
Theorem download_offer (topic : string) (w : world) (enhanced_report : value) :
  fst (run_research_process repr E topic
         (World (session_state w) (trace w ++ [Show empty])))
    = Ok enhanced_report ->
  (exists new,
      trace (snd (research_and_render repr E topic w)) = trace w ++ new /\
      match enhanced_report with
      | VStr _ => downloads new = [(enhanced_report, report_file topic)]
      | _ =>
          downloads new = [] /\
          exists before,
            new = before ++
                    [Show (error ("An error occurred: Invalid binary data format: <class '"
                                  +:+ type_name enhanced_report +:+ "'>"))]
      end) /\
  ~ Str.contains " " (report_file topic).
Proof.
  intros Hrun. split; [|apply report_file_has_no_space].
  rewrite research_and_render_run. rewrite Hrun. cbn [snd trace].
  destruct (run_research_process_shows repr E
              (fun ev =>
                 match ev with
                 | Show (download_button _ _ _ _) => False
                 | _ => True
                 end) topic)
    with (w := World (session_state w) (trace w ++ [Show empty]))
    as [_ (new & Hnew & Hquiet)].
  - intros d Hd. destruct d; try exact I. destruct Hd.
  - intros; exact I.
  - intros; exact I.
  - intros; exact I.
  - simpl in Hnew. rewrite Hnew, <- !app_assoc.
    eexists. split; [reflexivity|].
    pose proof (downloads_none new Hquiet) as Hnone.
    destruct enhanced_report;
      try (split;
           [cbn [app]; rewrite downloads_cons, downloads_app, Hnone; reflexivity
           |eexists (Show empty :: new ++ [_; _]); cbn [app];
            rewrite <- !app_assoc; reflexivity]).
    cbn [app]. rewrite downloads_cons, downloads_app, Hnone. reflexivity.
Qed.

(** X12.  A run of the page never ends in an exception, whatever the fields
    hold, whatever was stored before and whatever the remote services do:
    every exception of the research is caught inside the action of the
    button. *)
Theorem page_never_raises (i : inputs) (w : world) :
  fst (page repr E i w) = Ok tt.
Proof.
  destruct (page_split repr E i w) as (shown & _ & Hpage).
  cbv zeta in Hpage. rewrite Hpage. reflexivity.
Qed.

End RenderingExtras.

Lemma research_and_render_catches_witness :
  exists new,
    trace (snd (research_and_render Demo.repr (Demo.answering Demo.unavailable)
                  "quantum computing" Demo.start))
      = trace Demo.start ++ new /\
    downloads new = [].
Proof.
  refine (proj2 (research_and_render_catches Demo.repr
                   (Demo.answering Demo.unavailable) "quantum computing"
                   Demo.start
                   (Exception "LLaMA API error: 503 - Service Unavailable") _)).
  vm_compute. reflexivity.
Defined.

Lemma failure_is_rendered_witness :
  downloads
    (trace (snd (research_and_render Demo.repr
                   (Demo.crawl_failing Demo.unavailable) "quantum computing"
                   Demo.start)))
  = [(VStr "Research failed. Please try again.",
      "quantum_computing_report.md")].
Proof.
  rewrite (failure_is_rendered Demo.repr (Demo.crawl_failing Demo.unavailable)
             "quantum computing" Demo.start
             (snd (research_step Demo.repr (Demo.crawl_failing Demo.unavailable)
                     "quantum computing"
                     (World Demo.store [Show empty])))
             (Failed "Deep research failed: timeout")).
  - vm_compute. reflexivity.
  - vm_compute. reflexivity.
  - reflexivity.
Defined.

Lemma download_offer_witness :
  (exists new,
      trace (snd (research_and_render Demo.repr Demo.reporting
                    "quantum computing" Demo.start))
        = trace Demo.start ++ new /\
      downloads new = [(VStr "report", "quantum_computing_report.md")]) /\
  ~ Str.contains " " "quantum_computing_report.md".
Proof.
  apply (download_offer Demo.repr Demo.reporting "quantum computing"
           Demo.start (VStr "report")).
  vm_compute. reflexivity.
Defined.

(** ** More on the session store and the page *)

Lemma ensured_lookup_other name (ss : gmap string string) :
  name ∉ credential_keys -> ensured ss !! name = ss !! name.
Proof.
  unfold credential_keys. rewrite !not_elem_of_cons. intros (H1 & H2 & H3 & _).
  unfold ensured. rewrite !ensure_lookup_other by congruence. reflexivity.
Qed.

Lemma updated_lookup_other i name (ss : gmap string string) :
  name ∉ credential_keys -> updated i ss !! name = ss !! name.
Proof.
  unfold credential_keys. rewrite !not_elem_of_cons. intros (H1 & H2 & H3 & _).
  unfold updated. rewrite !keep_or_set_lookup_other by congruence. reflexivity.
Qed.

Lemma stored_initialised i (ss : gmap string string) :
  initialised (updated i (ensured ss)).
Proof.
  repeat split; (eexists; apply stored_lookup; unfold credential_keys;
                 rewrite !elem_of_cons; auto).
Qed.

Section StoreExtras.

Variable repr : value -> string.
Variable E : env.

(** X13.  After a run of the page the session store holds the three keys,
    whatever it held before, and every other key of the store is as it was:
    the page writes nothing but its three keys. *)
Theorem page_store_keys (i : inputs) (w : world) :
  initialised (session_state (snd (page repr E i w))) /\
  forall name,
    name ∉ credential_keys ->
    session_state (snd (page repr E i w)) !! name = session_state w !! name.
Proof.
  destruct (page_run repr E i w) as (shown & new & Hs & _).
  rewrite Hs. split; [apply stored_initialised|].
  intros name Hname.
  rewrite (updated_lookup_other i name _ Hname). apply ensured_lookup_other, Hname.
Qed.

(** X14.  After any sequence of runs of the page, a key of the session store
    holds the last non-empty value entered in its field during those runs,
    and the value it held before them when every entry was empty. *)
Theorem latest_entry_wins (runs : list inputs) (w : world) (name v : string) :
  name ∈ credential_keys ->
  session_state w !! name = Some v ->
  session_state (interact repr E runs w) !! name = Some (latest name runs v).
Proof.
  intros Hin. revert w v. induction runs as [|i runs IH]; intros w v Hv.
  - exact Hv.
  - unfold interact, latest in *. simpl. apply IH.
    destruct (page_run repr E i w) as (shown & new & Hs & _).
    rewrite Hs, (stored_lookup i name _ Hin), Hv. reflexivity.
Qed.

(** X15.  A run of the page talks to no remote service, and does not even
    build the Firecrawl application, unless the button is reported pressed
    and the topic, the stored endpoint and the stored crawl-service key are
    all non-empty. *)
Theorem no_call_unless_complete (i : inputs) (w : world) :
  let w' := snd (page repr E i w) in
  in_start_research i = false \/ in_research_topic i = "" \/
  session_state w' !!! "llama_endpoint" = "" \/
  session_state w' !!! "firecrawl_api_key" = "" ->
  exists new, trace w' = trace w ++ new /\ calls new = [].
Proof.
  intros w'. subst w'.
  destruct (page_run repr E i w) as (shown0 & new0 & Hs & _). rewrite Hs.
  clear shown0 new0 Hs.
  destruct (page_split repr E i w) as (shown & Hshown & Hpage).
  cbv zeta in Hpage. rewrite Hpage. clear Hpage.
  set (ss' := updated i (ensured (session_state w))).
  set (w5 := World ss' _).
  assert (Hcalls : calls shown = []).
  { apply calls_display. eapply Forall_impl; [exact Hshown|].
    intros [| | |d]; simpl; tauto. }
  intros Hmissing. destruct (in_start_research i) eqn:Hpressed.
  - destruct (start_research_quiet repr E (in_research_topic i) w5)
      as (msg & Hquiet).
    + apply stored_initialised.
    + simpl. destruct Hmissing as [H|[H|[H|H]]]; [discriminate|tauto..].
    + rewrite Hquiet. simpl. eexists. rewrite <- !app_assoc.
      split; [reflexivity|].
      rewrite !calls_app, Hcalls. reflexivity.
  - simpl. eexists. rewrite <- !app_assoc. split; [reflexivity|].
    rewrite !calls_app, Hcalls. reflexivity.
Qed.

End StoreExtras.

Lemma latest_entry_wins_witness :
  session_state
    (interact Demo.repr Demo.reporting
       [Inputs "https://other.example" "" "" "" false; Demo.fields_cleared]
       Demo.start)
    !! "llama_endpoint" = Some "https://other.example".
Proof.
  apply (latest_entry_wins Demo.repr Demo.reporting
           [Inputs "https://other.example" "" "" "" false; Demo.fields_cleared]
           Demo.start "llama_endpoint" "https://llm.example/generate").
  - constructor.
  - reflexivity.
Defined.

Lemma no_call_unless_complete_witness :
  exists new,
    trace (snd (page Demo.repr Demo.reporting
                  (Inputs "" "" "fc-key" "quantum computing" true)
                  (World ∅ [])))
      = trace (World ∅ []) ++ new /\
    calls new = [].
Proof.
  apply (no_call_unless_complete Demo.repr Demo.reporting
           (Inputs "" "" "fc-key" "quantum computing" true) (World ∅ [])).
  right. right. left. vm_compute. reflexivity.
Defined.

(** ** How many requests a run can make *)

Lemma spent_app cost tr1 tr2 :
  spent cost (tr1 ++ tr2) = (spent cost tr1 + spent cost tr2)%nat.
Proof.
  induction tr1 as [|ev tr1 IH]; simpl; [reflexivity|]. rewrite IH. lia.
Qed.

Lemma spent_posts tr : spent post_cost tr = length (posts tr).
Proof.
  induction tr as [|ev tr IH]; [reflexivity|].
  destruct ev; simpl; unfold posts in *; simpl; rewrite IH; reflexivity.
Qed.

Lemma spent_crawls tr : spent crawl_cost tr = length (crawls tr).
Proof.
  induction tr as [|ev tr IH]; [reflexivity|].
  destruct ev; simpl; unfold crawls in *; simpl; rewrite IH; reflexivity.
Qed.

Section Cost.

Variable cost : event -> nat.

Lemma at_most_still {A} (m : M A) :
  (forall w, trace (snd (m w)) = trace w) -> at_most cost 0 m.
Proof.
  intros H w. exists []. rewrite H, app_nil_r. split; [reflexivity|]. simpl. lia.
Qed.

Lemma at_most_ret {A} (a : A) : at_most cost 0 (mret a).
Proof. apply at_most_still. reflexivity. Qed.

Lemma at_most_raise {A} e : at_most cost 0 (@raise A e).
Proof. apply at_most_still. reflexivity. Qed.

Lemma at_most_lift {A} (r : result A) : at_most cost 0 (lift r).
Proof. apply at_most_still. reflexivity. Qed.

Lemma at_most_session_get name : at_most cost 0 (session_get name).
Proof.
  apply at_most_still. intros w. unfold session_get.
  destruct (session_state w !! name); reflexivity.
Qed.

Lemma at_most_session_set name v : at_most cost 0 (session_set name v).
Proof. apply at_most_still. reflexivity. Qed.

Lemma at_most_session_has name : at_most cost 0 (session_has name).
Proof. apply at_most_still. reflexivity. Qed.

Lemma at_most_emit ev : at_most cost (cost ev) (emit ev).
Proof.
  intros w. exists [ev]. split; [reflexivity|]. simpl. lia.
Qed.

Lemma at_most_weaken {A} n n' (m : M A) :
  (n <= n')%nat -> at_most cost n m -> at_most cost n' m.
Proof.
  intros Hle Hm w. destruct (Hm w) as (new & Ht & Hn).
  exists new. split; [exact Ht|]. lia.
Qed.

Lemma at_most_bind {A B} n k (m : M A) (f : A -> M B) :
  at_most cost n m -> (forall a, at_most cost k (f a)) ->
  at_most cost (n + k) (m ≫= f).
Proof.
  intros Hm Hf w. unfold mbind, M_bind.
  destruct (Hm w) as (new1 & Ht1 & Hn1).
  destruct (m w) as [[a|e] w1]; simpl in *.
  - destruct (Hf a w1) as (new2 & Ht2 & Hn2).
    exists (new1 ++ new2). rewrite Ht2, Ht1, app_assoc, spent_app.
    split; [reflexivity|]. lia.
  - exists new1. split; [exact Ht1|]. lia.
Qed.

Lemma at_most_try {A} n k (body : M A) (handler : exn -> M A) :
  at_most cost n body -> (forall e, at_most cost k (handler e)) ->
  at_most cost (n + k) (try_except body handler).
Proof.
  intros Hm Hf w. unfold try_except.
  destruct (Hm w) as (new1 & Ht1 & Hn1).
  destruct (body w) as [[a|e] w1]; simpl in *.
  - exists new1. split; [exact Ht1|]. lia.
  - destruct (Hf e w1) as (new2 & Ht2 & Hn2).
    exists (new1 ++ new2). rewrite Ht2, Ht1, app_assoc, spent_app.
    split; [reflexivity|]. lia.
Qed.

Lemma at_most_if {A} n (b : bool) (m1 m2 : M A) :
  at_most cost n m1 -> at_most cost n m2 ->
  at_most cost n (if b then m1 else m2).
Proof. destruct b; auto. Qed.

Hypothesis display_free : forall d, cost (Show d) = 0%nat.

Lemma at_most_show d : at_most cost 0 (show d).
Proof.
  eapply at_most_weaken; [|apply at_most_emit]. rewrite display_free. lia.
Qed.

Lemma at_most_with {A} n enter exit_ (body : M A) :
  at_most cost n body -> at_most cost n (with_ enter exit_ body).
Proof.
  intros Hb w. rewrite with_run. cbv zeta.
  destruct (Hb (World (session_state w) (trace w ++ [Show enter])))
    as (new & Ht & Hn).
  exists (Show enter :: new ++ [Show exit_]). simpl in *. rewrite Ht.
  rewrite <- !app_assoc. split; [reflexivity|].
  rewrite display_free, spent_app. simpl. rewrite display_free. lia.
Qed.

End Cost.

Section ProgramCost.

Variable repr : value -> string.
Variable E : env.
Variable cost : event -> nat.
Variables post_bound crawl_bound : nat.

Hypothesis display_free : forall d, cost (Show d) = 0%nat.
Hypothesis app_free : forall k, cost (NewFirecrawlApp k) = 0%nat.
Hypothesis post_bounded : forall r, (cost (Post r) <= post_bound)%nat.
Hypothesis crawl_bounded :
  forall k q p, (cost (Crawl k q p) <= crawl_bound)%nat.

Lemma call_llama_cost prompt : at_most cost post_bound (call_llama E prompt).
Proof.
  unfold call_llama.
  apply (at_most_weaken cost (0 + (0 + (0 + (post_bound + 0))))); [lia|].
  apply at_most_bind; [apply at_most_session_get|]. intros k.
  apply at_most_bind.
  { apply at_most_if; [|apply at_most_ret].
    apply (at_most_bind cost 0 0); [apply at_most_session_get|].
    intros; apply at_most_ret. }
  intros h. apply at_most_bind; [apply at_most_session_get|]. intros u.
  apply at_most_bind.
  { intros w. exists [Post (Request u h (payload prompt))].
    split; [reflexivity|]. simpl.
    pose proof (post_bounded (Request u h (payload prompt))). lia. }
  intros r. apply at_most_if; [|apply at_most_raise].
  apply (at_most_bind cost 0 0); [apply at_most_lift|].
  intros; apply at_most_lift.
Qed.

Lemma report_cost activities :
  at_most cost 0 (report (on_activity repr) activities).
Proof.
  induction activities as [|a rest IH]; simpl.
  - apply at_most_ret.
  - apply (at_most_bind cost 0 0); [|intros _; exact IH]. unfold on_activity.
    apply (at_most_bind cost 0 0); [apply at_most_lift|]. intros t.
    apply (at_most_bind cost 0 0); [apply at_most_lift|]. intros m.
    apply at_most_show, display_free.
Qed.

Lemma crawl_cost_bound query max_depth time_limit max_urls :
  at_most cost crawl_bound (crawl repr E query max_depth time_limit max_urls).
Proof.
  unfold crawl.
  apply (at_most_weaken cost (0 + (0 + crawl_bound))); [lia|].
  apply at_most_bind; [apply at_most_session_get|]. intros k.
  apply at_most_bind.
  { intros w. exists [NewFirecrawlApp k]. split; [reflexivity|]. simpl.
    rewrite app_free. lia. }
  intros app. apply at_most_with; [exact display_free|].
  intros w. unfold app_deep_research.
  destruct (firecrawl_deep_research E (trace w) app query _)
    as [activities outcome].
  destruct (report_cost activities
              (World (session_state w)
                 (trace w ++ [Crawl app query
                                (CrawlParams max_depth time_limit max_urls)])))
    as (new & Ht & Hn).
  pose proof (crawl_bounded app query
                (CrawlParams max_depth time_limit max_urls)) as Hc.
  exists (Crawl app query (CrawlParams max_depth time_limit max_urls) :: new).
  destruct (report _ _ _) as [[[]|e] w']; simpl in *; rewrite Ht, <- app_assoc;
    (split; [reflexivity|lia]).
Qed.

Lemma run_research_process_cost topic :
  at_most cost (crawl_bound + 2 * post_bound)
    (run_research_process repr E topic).
Proof.
  unfold run_research_process.
  apply (at_most_weaken cost
           ((crawl_bound + 0) + (post_bound + (0 + (post_bound + 0)))));
    [lia|].
  apply at_most_bind.
  { unfold research_step. apply at_most_with; [exact display_free|].
    unfold deep_research. apply at_most_try.
    - apply (at_most_weaken cost (crawl_bound + 0)); [lia|].
      apply at_most_bind; [apply crawl_cost_bound|].
      intros; apply at_most_lift.
    - intros e. apply (at_most_bind cost 0 0);
        [apply at_most_show, display_free|].
      intros _. apply at_most_ret. }
  intros r. apply at_most_if.
  { eapply at_most_weaken; [|apply at_most_ret]. apply Nat.le_0_l. }
  destruct r as [fa n srcs|msg].
  - apply at_most_bind; [apply call_llama_cost|]. intros draft.
    apply at_most_bind.
    { apply at_most_with; [exact display_free|].
      apply at_most_show, display_free. }
    intros _. apply at_most_bind; [|intros; apply at_most_ret].
    apply at_most_with; [exact display_free|]. apply call_llama_cost.
  - eapply at_most_weaken; [|apply at_most_raise]. apply Nat.le_0_l.
Qed.

Lemma research_and_render_cost topic :
  at_most cost (crawl_bound + 2 * post_bound)
    (research_and_render repr E topic).
Proof.
  unfold research_and_render.
  apply (at_most_weaken cost
           ((0 + ((crawl_bound + 2 * post_bound) + (0 + (0 + 0)))) + 0));
    [lia|].
  apply at_most_try.
  - apply at_most_bind; [apply at_most_show, display_free|]. intros _.
    apply at_most_bind; [apply run_research_process_cost|]. intros rep.
    apply at_most_bind; [apply at_most_show, display_free|]. intros _.
    apply at_most_bind; [apply at_most_show, display_free|]. intros _.
    unfold st_download_button.
    destruct rep; try apply at_most_raise. apply at_most_show, display_free.
  - intros e. apply at_most_show, display_free.
Qed.

Lemma start_research_cost topic :
  at_most cost (crawl_bound + 2 * post_bound) (start_research repr E topic).
Proof.
  assert (Hwarn : forall s,
    at_most cost (crawl_bound + 2 * post_bound) (show (warning s))).
  { intros s. eapply at_most_weaken; [|apply at_most_show, display_free].
    apply Nat.le_0_l. }
  unfold start_research. apply at_most_if; [apply Hwarn|].
  apply (at_most_bind cost 0); [apply at_most_session_get|]. intros fk.
  apply at_most_if; [apply Hwarn|].
  apply (at_most_bind cost 0); [apply at_most_session_get|]. intros ep.
  apply at_most_if; [apply Hwarn|]. apply research_and_render_cost.
Qed.

End ProgramCost.

Lemma spent_display cost tr :
  (forall d, cost (Show d) = 0%nat) ->
  Forall (fun ev => match ev with Show d => plain d | _ => False end) tr ->
  spent cost tr = 0%nat.
Proof.
  intros Hfree. induction 1 as [|ev tr Hev _ IH]; [reflexivity|].
  destruct ev as [| | |d]; try contradiction. simpl. rewrite Hfree, IH.
  reflexivity.
Qed.

Lemma page_cost repr E cost post_bound crawl_bound i w :
  (forall d, cost (Show d) = 0%nat) ->
  (forall k, cost (NewFirecrawlApp k) = 0%nat) ->
  (forall r, (cost (Post r) <= post_bound)%nat) ->
  (forall k q p, (cost (Crawl k q p) <= crawl_bound)%nat) ->
  exists new,
    trace (snd (page repr E i w)) = trace w ++ new /\
    (spent cost new <= crawl_bound + 2 * post_bound)%nat.
Proof.
  intros Hd Ha Hp Hc.
  destruct (page_split repr E i w) as (shown & Hshown & Hpage).
  cbv zeta in Hpage. rewrite Hpage. clear Hpage.
  set (ss' := updated i (ensured (session_state w))).
  set (w5 := World ss' _).
  pose proof (spent_display cost shown Hd Hshown) as Hzero.
  destruct (in_start_research i).
  - destruct (start_research_cost repr E cost post_bound crawl_bound
                Hd Ha Hp Hc (in_research_topic i) w5) as (new & Ht & Hn).
    cbn [snd trace]. rewrite Ht. subst w5. cbn [trace].
    eexists. rewrite <- !app_assoc. split; [reflexivity|].
    rewrite !spent_app, Hzero. simpl. rewrite !Hd. lia.
  - cbn [snd trace]. subst w5. cbn [trace].
    eexists. rewrite <- !app_assoc. split; [reflexivity|].
    rewrite !spent_app, Hzero. simpl. rewrite !Hd. lia.
Qed.

(** X16.  Whatever the remote services answer, a run of the page calls the
    crawling service at most once and posts at most two requests to the
    completion endpoint: nothing is retried. *)
Theorem request_bounds (repr : value -> string) (E : env) (i : inputs)
    (w : world) :
  exists new,
    trace (snd (page repr E i w)) = trace w ++ new /\
    (length (crawls new) <= 1)%nat /\
    (length (posts new) <= 2)%nat.
Proof.
  destruct (page_cost repr E crawl_cost 0 1 i w
              (fun _ => eq_refl) (fun _ => eq_refl)
              (fun _ => le_n 0) (fun _ _ _ => le_n 1))
    as (new & Ht & Hcrawls).
  destruct (page_cost repr E post_cost 1 0 i w
              (fun _ => eq_refl) (fun _ => eq_refl)
              (fun _ => le_n 1) (fun _ _ _ => le_n 0))
    as (new' & Ht' & Hposts).
  assert (new' = new) as ->
    by (apply (app_inv_head (trace w)); rewrite <- Ht, <- Ht'; reflexivity).
  exists new. rewrite spent_crawls in Hcrawls. rewrite spent_posts in Hposts.
  split; [exact Ht|]. split; lia.
Qed.

(** ** When the research starts *)

Lemma bind_grows {A B} (m : M A) (k : A -> M B) w :
  (forall a, emits (fun _ => True) (k a)) ->
  exists new, trace (snd ((m ≫= k) w)) = trace (snd (m w)) ++ new.
Proof.
  intros Hk. unfold mbind, M_bind. destruct (m w) as [[a|e] w1]; simpl.
  - destruct (Hk a w1) as [_ (new & Ht & _)]. eauto.
  - exists []. rewrite app_nil_r. reflexivity.
Qed.

Section Start.

Variable repr : value -> string.
Variable E : env.

Lemma crawl_starts query max_depth time_limit max_urls w key :
  session_state w !! "firecrawl_api_key" = Some key ->
  exists rest,
    trace (snd (crawl repr E query max_depth time_limit max_urls w))
      = trace w ++ NewFirecrawlApp key :: rest.
Proof.
  intros Hk. unfold crawl. unfold mbind at 1, M_bind at 1.
  rewrite (session_get_some _ _ _ Hk).
  destruct (bind_grows (FirecrawlApp E key)
              (fun app =>
                 with_ (spinner_enter "Performing deep research...") spinner_exit
                   (app_deep_research E app query
                      (CrawlParams max_depth time_limit max_urls)
                      (on_activity repr))) w) as (new & Hnew).
  - intros app. apply emits_with; [exact I|exact I|].
    apply app_deep_research_emits; intros; exact I.
  - rewrite Hnew. unfold FirecrawlApp. simpl. rewrite <- app_assoc.
    eauto.
Qed.

Lemma run_research_process_starts topic w key :
  session_state w !! "firecrawl_api_key" = Some key ->
  exists rest,
    trace (snd (run_research_process repr E topic w))
      = trace w ++
          Show (spinner_enter "Conducting deep web research...")
          :: NewFirecrawlApp key :: rest.
Proof.
  intros Hk. unfold run_research_process.
  match goal with
  | |- context [snd ((research_step repr E topic ≫= ?k) w)] =>
      destruct (bind_grows (research_step repr E topic) k w) as (new & Hnew)
  end.
  - intros r. apply emits_if; [apply emits_ret|].
    destruct r as [fa n srcs|msg]; [|apply emits_raise].
    apply emits_bind; [apply call_llama_emits; intros; exact I|]. intros draft.
    apply emits_bind.
    { apply emits_with; [exact I|exact I|]. apply emits_show. exact I. }
    intros _. apply emits_bind; [|intros; apply emits_ret].
    apply emits_with; [exact I|exact I|]. apply call_llama_emits; intros; exact I.
  - rewrite Hnew. unfold research_step. rewrite with_run. cbn [snd trace].
    set (w0 := World (session_state w) _).
    destruct (crawl_starts topic 3 180 10 w0 key Hk) as (rest & Hrest).
    assert (Hdeep : exists tail,
      trace (snd (deep_research repr E topic 3 180 10 w0))
        = trace (snd (crawl repr E topic 3 180 10 w0)) ++ tail).
    { unfold deep_research, try_except, mbind, M_bind.
      destruct (crawl repr E topic 3 180 10 w0) as [[results|e] w1]; simpl.
      - unfold lift. destruct (crawl_record results); simpl.
        + exists []. rewrite app_nil_r. reflexivity.
        + eauto.
      - eauto. }
    destruct Hdeep as (tail & Hdeep). rewrite Hdeep, Hrest. subst w0. simpl.
    rewrite <- ?app_assoc. simpl. rewrite <- ?app_assoc. eauto.
Qed.

(** X17.  When the button is reported pressed and the topic, the stored
    endpoint and the stored crawl-service key are all non-empty, the run of
    the page starts the research: its first remote action is to build the
    Firecrawl application with the stored crawl-service key. *)
Theorem research_starts (i : inputs) (w : world) :
  let w' := snd (page repr E i w) in
  in_start_research i = true ->
  in_research_topic i <> "" ->
  session_state w' !!! "llama_endpoint" <> "" ->
  session_state w' !!! "firecrawl_api_key" <> "" ->
  exists new rest,
    trace w' = trace w ++ new /\
    calls new = NewFirecrawlApp (session_state w' !!! "firecrawl_api_key") :: rest.
Proof.
  intros w'. subst w'.
  destruct (page_run repr E i w) as (shown0 & new0 & Hs & _). rewrite Hs.
  clear shown0 new0 Hs.
  destruct (page_split repr E i w) as (shown & Hshown & Hpage).
  cbv zeta in Hpage. rewrite Hpage. clear Hpage.
  set (ss' := updated i (ensured (session_state w))).
  set (w5 := World ss' _).
  assert (Hcalls : calls shown = []).
  { apply calls_display. eapply Forall_impl; [exact Hshown|].
    intros [| | |d]; simpl; tauto. }
  destruct (stored_initialised i (session_state w)) as (_ & [ep Hep] & [fk Hfk]).
  fold ss' in Hep, Hfk.
  rewrite (lookup_total_correct _ _ _ Hep), (lookup_total_correct _ _ _ Hfk).
  intros -> Ht He Hf. apply truthy_nonempty in Ht, He, Hf.
  assert (Hstart :
    snd (start_research repr E (in_research_topic i) w5)
    = snd (research_and_render repr E (in_research_topic i) w5)).
  { unfold start_research. rewrite Ht. simpl. unfold mbind, M_bind.
    rewrite (session_get_some "firecrawl_api_key" fk w5 Hfk), Hf. simpl.
    rewrite (session_get_some "llama_endpoint" ep w5 Hep), He. reflexivity. }
  rewrite Hstart, research_and_render_run. cbv zeta. cbn [snd trace session_state].
  match goal with
  | |- context [run_research_process repr E ?t ?w0] =>
      destruct (run_research_process_starts t w0 fk Hfk) as (rest & Hrest)
  end.
  rewrite Hrest. subst w5. cbn [trace].
  eexists _, _. rewrite <- !app_assoc. split; [reflexivity|].
  rewrite !calls_app, Hcalls. simpl. rewrite !calls_cons. simpl. reflexivity.
Qed.

End Start.

Lemma research_starts_witness :
  exists new rest,
    trace (snd (page Demo.repr Demo.reporting Demo.fields_cleared Demo.start))
      = trace Demo.start ++ new /\
    calls new =
      NewFirecrawlApp
        (session_state
           (snd (page Demo.repr Demo.reporting Demo.fields_cleared Demo.start))
           !!! "firecrawl_api_key") :: rest.
Proof.
  apply (research_starts Demo.repr Demo.reporting Demo.fields_cleared
           Demo.start).
  - reflexivity.
  - discriminate.
  - vm_compute. discriminate.
  - vm_compute. discriminate.
Defined.

(** ** Stripping *)

Lemma string_strong_ind (P : string -> Prop) :
  (forall s,
      (forall t, (Stdlib.Strings.String.length t
                  < Stdlib.Strings.String.length s)%nat -> P t) -> P s) ->
  forall s, P s.
Proof.
  intros H s.
  remember (Stdlib.Strings.String.length s) as n eqn:Hn. revert s Hn.
  induction n as [n IH] using lt_wf_ind. intros s ->.
  apply H. intros t Ht. exact (IH _ Ht t eq_refl).
Qed.

Lemma lstrip_clean s : starts_with_space (Str.lstrip s) = false.
Proof.
  induction s as [s IH] using string_strong_ind.
  destruct s as [|a s1]; [reflexivity|]. simpl.
  destruct (Str.space1 (Str.byte a)) eqn:H1; [apply IH; simpl; lia|].
  destruct s1 as [|b s2]; [simpl; rewrite H1; reflexivity|].
  destruct (Str.space2 (Str.byte a) (Str.byte b)) eqn:H2;
    [apply IH; simpl; lia|].
  destruct s2 as [|c s3]; [simpl; rewrite H1, H2; reflexivity|].
  destruct (Str.space3 (Str.byte a) (Str.byte b) (Str.byte c)) eqn:H3;
    [apply IH; simpl; lia|].
  simpl. rewrite H1, H2, H3. reflexivity.
Qed.

Lemma lstrip_rev_clean s : starts_with_space_reversed (Str.lstrip_rev s) = false.
Proof.
  induction s as [s IH] using string_strong_ind.
  destruct s as [|a s1]; [reflexivity|]. simpl.
  destruct (Str.space1 (Str.byte a)) eqn:H1; [apply IH; simpl; lia|].
  destruct s1 as [|b s2]; [simpl; rewrite H1; reflexivity|].
  destruct (Str.space2 (Str.byte b) (Str.byte a)) eqn:H2;
    [apply IH; simpl; lia|].
  destruct s2 as [|c s3]; [simpl; rewrite H1, H2; reflexivity|].
  destruct (Str.space3 (Str.byte c) (Str.byte b) (Str.byte a)) eqn:H3;
    [apply IH; simpl; lia|].
  simpl. rewrite H1, H2, H3. reflexivity.
Qed.

Lemma lstrip_rev_suffix s : exists pre, s = pre +:+ Str.lstrip_rev s.
Proof.
  induction s as [s IH] using string_strong_ind.
  destruct s as [|a s1]; [exists ""; reflexivity|]. simpl.
  destruct (Str.space1 (Str.byte a)).
  { destruct (IH s1) as (pre & Hpre); [simpl; lia|].
    exists (String a pre). exact (f_equal (String a) Hpre). }
  destruct s1 as [|b s2]; [exists ""; reflexivity|].
  destruct (Str.space2 (Str.byte b) (Str.byte a)).
  { destruct (IH s2) as (pre & Hpre); [simpl; lia|].
    exists (String a (String b pre)).
    exact (f_equal (fun x => String a (String b x)) Hpre). }
  destruct s2 as [|c s3]; [exists ""; reflexivity|].
  destruct (Str.space3 (Str.byte c) (Str.byte b) (Str.byte a)).
  { destruct (IH s3) as (pre & Hpre); [simpl; lia|].
    exists (String a (String b (String c pre))).
    exact (f_equal (fun x => String a (String b (String c x))) Hpre). }
  exists "". reflexivity.
Qed.

Lemma append_empty_r s : s +:+ "" = s.
Proof.
  induction s as [|a s IH]; [reflexivity|].
  change (String a (s +:+ "") = String a s). rewrite IH. reflexivity.
Qed.

Lemma rev_app_append s acc : String.rev_app s acc = String.rev s +:+ acc.
Proof.
  unfold String.rev. revert acc. induction s as [|a s IH]; intros acc.
  - reflexivity.
  - simpl. rewrite (IH (String a acc)), (IH (String a "")), append_assoc.
    reflexivity.
Qed.

Lemma rev_append s t : String.rev (s +:+ t) = String.rev t +:+ String.rev s.
Proof.
  induction s as [|a s IH].
  - simpl. rewrite append_empty_r. reflexivity.
  - change (String.rev (String a (s +:+ t)) = String.rev t +:+ String.rev (String a s)).
    unfold String.rev at 1 3. simpl.
    rewrite !rev_app_append, IH, append_assoc. reflexivity.
Qed.

Lemma rev_involutive s : String.rev (String.rev s) = s.
Proof.
  induction s as [|a s IH]; [reflexivity|].
  unfold String.rev at 2. simpl. rewrite rev_app_append, rev_append, IH.
  reflexivity.
Qed.

Lemma rstrip_prefix s : exists post, s = Str.rstrip s +:+ post.
Proof.
  unfold Str.rstrip.
  destruct (lstrip_rev_suffix (String.rev s)) as (pre & Hpre).
  exists (String.rev pre).
  rewrite <- rev_append, <- Hpre, rev_involutive. reflexivity.
Qed.

Lemma starts_with_space_prefix p q :
  starts_with_space p = true -> starts_with_space (p +:+ q) = true.
Proof.
  destruct p as [|a [|b [|c p]]]; simpl; try discriminate.
  - rewrite orb_false_r. intros ->. reflexivity.
  - rewrite !orb_false_r. intros H. apply orb_true_iff in H.
    destruct H as [-> | ->]; [reflexivity|].
    destruct q; simpl; rewrite ?orb_true_r; reflexivity.
  - auto.
Qed.

Lemma strip_clean s :
  starts_with_space (Str.strip s) = false /\
  ends_with_space (Str.strip s) = false.
Proof.
  unfold Str.strip. split.
  - destruct (starts_with_space (Str.rstrip (Str.lstrip s))) eqn:H;
      [|reflexivity].
    destruct (rstrip_prefix (Str.lstrip s)) as (post & Hpost).
    pose proof (starts_with_space_prefix _ post H) as H'.
    rewrite <- Hpost, lstrip_clean in H'. discriminate H'.
  - unfold ends_with_space, Str.rstrip. rewrite rev_involutive.
    apply lstrip_rev_clean.
Qed.

(** X18.  On a 200 answer whose JSON body is an object with a string
    [generated_text] field, the text [call_llama] returns neither starts nor
    ends with a whitespace character. *)
Theorem object_text_is_trimmed (E : env) (prompt : string) (w : world)
    (r : response) (d : gmap string value) (s : string) :
  initialised (session_state w) ->
  requests_post E (trace w) (llama_request (session_state w) prompt) = Ok r ->
  status_code r = 200%Z ->
  json r = Ok (VDict d) ->
  d !! "generated_text" = Some (VStr s) ->
  exists t,
    fst (call_llama E prompt w) = Ok (VStr t) /\
    starts_with_space t = false /\ ends_with_space t = false.
Proof.
  intros (Hk & Hu & _) Hr Hs Hj Hf.
  rewrite (call_llama_run E prompt w Hk Hu), Hr. simpl. rewrite Hs, Hj.
  unfold generated_text. simpl. rewrite Hf. simpl.
  exists (Str.strip s). split; [reflexivity|]. apply strip_clean.
Qed.

Lemma object_text_is_trimmed_witness :
  exists t,
    fst (call_llama
           (Demo.answering
              (Demo.ok_json (VDict {[ "generated_text" := VStr " draft " ]})))
           "hello" Demo.start) = Ok (VStr t) /\
    starts_with_space t = false /\ ends_with_space t = false.
Proof.
  apply (object_text_is_trimmed _ "hello" Demo.start
           (Demo.ok_json (VDict {[ "generated_text" := VStr " draft " ]}))
           {[ "generated_text" := VStr " draft " ]} " draft ").
  - exact example_store_initialised.
  - reflexivity.
  - reflexivity.
  - reflexivity.
  - reflexivity.
Defined.

(** A completion answer whose text is the number 5: the report is rendered,
    the download widget refuses it, and the refusal is shown as an error. *)
Example number_is_not_downloadable :
  let w := snd (research_and_render Demo.repr
                  (Demo.answering
                     (Demo.ok_json (VList [VDict {[ "generated_text" := VInt 5 ]}])))
                  "quantum computing" Demo.start) in
  downloads (trace w) = [] /\
  errors (trace w)
    = ["An error occurred: Invalid binary data format: <class 'int'>"].
Proof. vm_compute. auto. Qed.
